(** * The web research tool of the LinkedIn post generator

    A shallow embedding of [src/linkedin_post/tools/web_research.py]
    (class [WebResearchTool]) and the properties of its report pipeline:
    relevance scoring, result ranking, key-finding and keyword extraction,
    summary synthesis and the fallback payload.

    Conventions of the embedding:
    - a Python [str] is a [text], the list of its code points, so that
      [len] is [length]; [txt "..."] is the literal with these characters;
    - white space is the set [str.isspace] accepts; the tables of the
      Unicode database that [str.lower] and [str.isalpha] consult are the
      fields of a record [unicode], and [str.lower] is the algorithm of
      the interpreter over these tables, final sigma included;
    - a value handed over by the search backend is text or [None] ([pyval]);
    - a Python [float] built only from the additions [+= 1.0] and [+= 0.5]
      is an exact dyadic rational, kept in [Q];
    - [Raise msg] is a raised exception of class [Exception], with [msg]
      what [str(e)] returns; [Abort name] is a raised exception outside
      that class ([KeyboardInterrupt], [SystemExit], [GeneratorExit]),
      which [except Exception] lets through and a bare [except] catches;
      exceptions come from the calls of the backend and of [urlparse],
      from [len(None)] and from [join] on an item that is [None];
    - the search backend, the clock, [urlparse] and the iteration order of a
      [set] are fields of the environment [env]. *)

From Stdlib Require Import String Ascii List Bool Arith NArith ZArith QArith Lia Lqa.
From Stdlib Require Import DecimalString Permutation Sorted.
Import ListNotations.

Local Open Scope string_scope.
Local Open Scope list_scope.
Local Open Scope nat_scope.

(* ================================================================= *)
(** ** Text *)

(** A text is the list of the code points of a [str]. *)
Definition text : Type := list N.

(** The code points written by the bytes [bs] in UTF-8. *)
Fixpoint utf8 (bs : list N) : text :=
  match bs with
  | [] => []
  | b :: r =>
      if (b <? 128)%N then b :: utf8 r
      else if (b <? 224)%N then
        match r with
        | c1 :: r' => (N.land b 31 * 64 + N.land c1 63)%N :: utf8 r'
        | _ => []
        end
      else if (b <? 240)%N then
        match r with
        | c1 :: c2 :: r' =>
            (N.land b 15 * 4096 + N.land c1 63 * 64 + N.land c2 63)%N :: utf8 r'
        | _ => []
        end
      else
        match r with
        | c1 :: c2 :: c3 :: r' =>
            (N.land b 7 * 262144 + N.land c1 63 * 4096 + N.land c2 63 * 64 +
             N.land c3 63)%N :: utf8 r'
        | _ => []
        end
  end.

(** The text written by a string of the development. *)
Definition text_of_string (s : string) : text :=
  utf8 (map N_of_ascii (list_ascii_of_string s)).

(** A literal: [txt "..."] stands for the code points of the text. *)
Notation "'txt' s" :=
  (ltac:(let t := eval vm_compute in (text_of_string s) in exact t))
  (at level 10, s at level 9, only parsing).

(** [a == b] on texts. *)
Fixpoint text_eqb (a b : text) : bool :=
  match a, b with
  | [], [] => true
  | x :: a', y :: b' => (x =? y)%N && text_eqb a' b'
  | _, _ => false
  end.

(* ================================================================= *)
(** ** Python built-ins used by the tool *)

Module Py.

(** [c.isspace()] for one code point: the white space of [str.split()]
    and [str.strip()]. *)
Definition isspace (c : N) : bool :=
  (((9 <=? c) && (c <=? 13)) || ((28 <=? c) && (c <=? 32)) ||
   (c =? 133) || (c =? 160) || (c =? 5760) ||
   ((8192 <=? c) && (c <=? 8202)) ||
   (c =? 8232) || (c =? 8233) || (c =? 8239) || (c =? 8287) ||
   (c =? 12288))%N.

(** The ASCII part of the case tables. *)
Definition ascii_upper (c : N) : bool := ((65 <=? c) && (c <=? 90))%N.

Definition ascii_lower (c : N) : N :=
  if ascii_upper c then (c + 32)%N else c.

(** Capital sigma, final small sigma, small sigma and the blank. *)
Definition capital_sigma : N := 931.
Definition final_sigma : N := 962.
Definition small_sigma : N := 963.
Definition blank : N := 32.

(** The tables of the Unicode database behind [str.isalpha] and
    [str.lower]: the alphabetic code points, the full lower-case mapping
    of a code point, the cased and the case-ignorable code points.  The
    last five fields are facts of the database: on ASCII the mapping moves
    [A-Z] to [a-z] and nothing else; the blank is neither cased nor
    case-ignorable; what a mapping gives is mapped to itself and is never
    the capital sigma; so are the two small sigmas. *)
Record unicode : Type := {
  alpha : N -> bool;
  tolower : N -> text;
  cased : N -> bool;
  case_ignorable : N -> bool;
  tolower_ascii : forall c, (c < 128)%N -> tolower c = [ascii_lower c];
  blank_not_cased : cased blank = false;
  blank_not_ignorable : case_ignorable blank = false;
  tolower_stable :
    forall c d, In d (tolower c) -> tolower d = [d] /\ d <> capital_sigma;
  sigma_stable :
    tolower final_sigma = [final_sigma] /\ tolower small_sigma = [small_sigma]
}.

Section Unicode.
Context (U : unicode).

(** Skipping the case-ignorable code points at the head of [l], the
    first code point left is cased. *)
Fixpoint cased_first (l : text) : bool :=
  match l with
  | [] => false
  | c :: l' => if case_ignorable U c then cased_first l' else cased U c
  end.

(** The lower case of [c] between the code points [before] (nearest
    first) and [after]: a capital sigma becomes the final sigma after a
    cased letter and not before one, the small sigma otherwise. *)
Definition lower_at (before after : text) (c : N) : text :=
  if (c =? capital_sigma)%N then
    [if cased_first before && negb (cased_first after)
     then final_sigma else small_sigma]
  else tolower U c.

Fixpoint lower_from (before s : text) : text :=
  match s with
  | [] => []
  | c :: rest => lower_at before rest c ++ lower_from (c :: before) rest
  end.

(** [s.lower()] *)
Definition lower (s : text) : text := lower_from [] s.

(** [s.isalpha()]: at least one code point, and all of them alphabetic. *)
Definition isalpha (s : text) : bool :=
  match s with
  | [] => false
  | _ => forallb (alpha U) s
  end.

End Unicode.

Fixpoint prefix (needle hay : text) : bool :=
  match needle with
  | [] => true
  | x :: needle' =>
      match hay with
      | [] => false
      | y :: hay' => (x =? y)%N && prefix needle' hay'
      end
  end.

(** [needle in hay] on texts. *)
Fixpoint contains (needle hay : text) : bool :=
  prefix needle hay ||
  match hay with
  | [] => false
  | _ :: hay' => contains needle hay'
  end.

Definition cons_word (w : text) (ws : list text) : list text :=
  match w with
  | [] => ws
  | _ => w :: ws
  end.

(** The word that starts at the head of [s] (empty when [s] starts with
    white space) and the words after it. *)
Fixpoint split_aux (s : text) : text * list text :=
  match s with
  | [] => ([], [])
  | c :: s' =>
      let (w, ws) := split_aux s' in
      if isspace c then ([], cons_word w ws) else (c :: w, ws)
  end.

(** [s.split()]: maximal runs of code points that are not white space. *)
Definition split (s : text) : list text :=
  let (w, ws) := split_aux s in cons_word w ws.

(** The piece that starts at the head of [s] and the pieces after it, when
    the first [skip] code points of [s] still belong to a separator. *)
Fixpoint split_on_aux (sep s : text) (skip : nat) : text * list text :=
  match s with
  | [] => ([], [])
  | c :: s' =>
      match skip with
      | S k => split_on_aux sep s' k
      | O =>
          if prefix sep s
          then let (w, ws) := split_on_aux sep s' (length sep - 1) in
               ([], w :: ws)
          else let (w, ws) := split_on_aux sep s' 0 in
               (c :: w, ws)
      end
  end.

(** [s.split(sep)] for a separator that is not empty: separators are found
    from the left and do not overlap; the result is never empty. *)
Definition split_on (sep s : text) : list text :=
  let (w, ws) := split_on_aux sep s 0 in w :: ws.

Fixpoint lstrip_by (p : N -> bool) (s : text) : text :=
  match s with
  | [] => []
  | c :: s' => if p c then lstrip_by p s' else s
  end.

Fixpoint rstrip_by (p : N -> bool) (s : text) : text :=
  match s with
  | [] => []
  | c :: s' =>
      match rstrip_by p s' with
      | [] => if p c then [] else [c]
      | r => c :: r
      end
  end.

Definition strip_by (p : N -> bool) (s : text) : text :=
  rstrip_by p (lstrip_by p s).

Definition char_in (cs : text) (c : N) : bool :=
  existsb (N.eqb c) cs.

(** [s.strip()] *)
Definition strip (s : text) : text := strip_by isspace s.

(** [s.rstrip(chars)] and [s.strip(chars)] *)
Definition rstrip_chars (cs : text) (s : text) : text :=
  rstrip_by (char_in cs) s.
Definition strip_chars (cs : text) (s : text) : text :=
  strip_by (char_in cs) s.

(** [x in l] for a list of texts. *)
Definition mem (x : text) (l : list text) : bool :=
  existsb (text_eqb x) l.

(** [l[:n]]: a negative [n] counts from the end. *)
Definition slice_to {A : Type} (n : Z) (l : list A) : list A :=
  if (0 <=? n)%Z then firstn (Z.to_nat n) l
  else firstn (length l - Z.to_nat (- n)) l.

(** [sep.join(l)] *)
Fixpoint join (sep : text) (l : list text) : text :=
  match l with
  | [] => []
  | [x] => x
  | x :: l' => x ++ sep ++ join sep l'
  end.

(** [str(n)] for a length or a position. *)
Definition str_of_nat (n : nat) : text :=
  text_of_string (NilEmpty.string_of_uint (Nat.to_uint n)).

(** [sorted(l, key=..., reverse=True)] and [l.sort(key=..., reverse=True)]:
    descending by key, equal keys in their original order.  [lt a b] says
    that the key of [a] is strictly below the key of [b]. *)
Section SortDesc.
Context {A : Type} (lt : A -> A -> bool).

Fixpoint insert_desc (x : A) (l : list A) : list A :=
  match l with
  | [] => [x]
  | y :: l' => if lt x y then y :: insert_desc x l' else x :: l
  end.

Definition sort_desc (l : list A) : list A :=
  fold_right insert_desc [] l.
End SortDesc.

End Py.

(* ================================================================= *)
(** ** Values, exceptions and dictionaries *)

(** A value found in a hit of the search backend. *)
Inductive pyval : Type :=
| PStr (s : text)
| PNone.

(** Truth value of [v] in [if v:] and [not v]. *)
Definition truthy (v : pyval) : bool :=
  match v with
  | PStr [] => false
  | PStr _ => true
  | PNone => false
  end.

(** [v] inside an f-string. *)
Definition format (v : pyval) : text :=
  match v with
  | PStr s => s
  | PNone => txt "None"
  end.

Inductive outcome (A : Type) : Type :=
| Ok (a : A)
| Raise (msg : text)
| Abort (name : text).
Arguments Ok {A} a.
Arguments Raise {A} msg.
Arguments Abort {A} name.

Definition bind {A B : Type} (m : outcome A) (k : A -> outcome B) : outcome B :=
  match m with
  | Ok a => k a
  | Raise e => Raise e
  | Abort n => Abort n
  end.

(** [try: body except Exception as e: handler(str(e))] *)
Definition try_except {A : Type} (body : outcome A) (handler : text -> outcome A)
  : outcome A :=
  match body with
  | Ok a => Ok a
  | Raise e => handler e
  | Abort n => Abort n
  end.

Notation "x <- m ;; k" := (bind m (fun x => k))
  (at level 61, m at next level, right associativity).

(** A dictionary with text keys, in insertion order. *)
Definition dict (V : Type) : Type := list (text * V).

(** [d.get(k, default)] *)
Fixpoint dict_get {V : Type} (d : dict V) (k : text) (default : V) : V :=
  match d with
  | [] => default
  | (k', v) :: d' => if text_eqb k' k then v else dict_get d' k default
  end.

(** [d[k] = v]: an existing key keeps its place, a new key goes last. *)
Fixpoint dict_set {V : Type} (d : dict V) (k : text) (v : V) : dict V :=
  match d with
  | [] => [(k, v)]
  | (k', v') :: d' =>
      if text_eqb k' k then (k', v) :: d' else (k', v') :: dict_set d' k v
  end.

(** The value passed to [json.dumps]; the names of the fields are the
    literals of the source. *)
#[warnings="-register-all"]
Inductive json : Type :=
| JNull
| JStr (s : text)
| JInt (n : nat)
| JFloat (q : Q)
| JList (l : list json)
| JObj (fields : list (string * json)).

Definition json_of_pyval (v : pyval) : json :=
  match v with
  | PStr s => JStr s
  | PNone => JNull
  end.

Definition keys (j : json) : list string :=
  match j with
  | JObj fields => map fst fields
  | _ => []
  end.

(** [j[k]] for an object, [None] when [k] is not a field. *)
Definition field (k : string) (j : json) : option json :=
  match j with
  | JObj fields =>
      match find (fun kv => String.eqb (fst kv) k) fields with
      | Some kv => Some (snd kv)
      | None => None
      end
  | _ => None
  end.

(* ================================================================= *)
(** ** The tool *)

Module WebResearchTool.

(** One element of the list a search tool returns: a dictionary, or
    anything else ([isinstance(result, dict)] is false). *)
Inductive raw_hit : Type :=
| RDict (d : dict pyval)
| ROther.

Inductive result_type : Type := web_search | news.

(** The dictionary built for a hit; [source] and [date] exist for news only. *)
Record search_result : Type := {
  title : pyval;
  content : pyval;
  url : pyval;
  source : option pyval;
  date : option pyval;
  type_ : result_type;
  relevance : Q
}.

(** What the tool takes from outside: [search] is
    [self._get_search_tool().invoke], [news_search] is
    [self._get_news_search_tool().invoke], [now] is
    [datetime.now().isoformat()], [netloc] is [urlparse(url).netloc] and
    [set_order] is the order in which [list(sources)] walks the set whose
    members were added in the order given. *)
Record env : Type := {
  search : text -> outcome (list raw_hit);
  news_search : text -> outcome (list raw_hit);
  now : text;
  netloc : text -> outcome text;
  set_order : list text -> list text;
  set_order_perm : forall l, Permutation (set_order l) l
}.

Definition nl : text := [10%N].
Definition bullet : text := txt "•".

Definition Qltb (x y : Q) : bool := negb (Qle_bool y x).

(** *** [_calculate_relevance] *)

Definition bonus_keywords : list text :=
  [txt "2025"; txt "2024"; txt "2023"; txt "trend"; txt "growth"; txt "increase"; txt "statistics"; txt "data"; txt "report"].

Definition add_if_in (amount : Q) (content_lower : text)
    (relevance_score : Q) (word : text) : Q :=
  if Py.contains word content_lower
  then (relevance_score + amount)%Q else relevance_score.

Definition topic_words (U : Py.unicode) (topic : text) : list text :=
  Py.split (Py.lower U topic).

Definition _calculate_relevance (U : Py.unicode) (content : pyval)
    (topic : text) : Q :=
  match content with
  | PNone => 0%Q
  | PStr [] => 0%Q
  | PStr c =>
      let content_lower := Py.lower U c in
      let relevance_score :=
        fold_left (add_if_in 1%Q content_lower) (topic_words U topic) 0%Q in
      fold_left (add_if_in (1 # 2)%Q content_lower) bonus_keywords
        relevance_score
  end.

(** *** [_search_web] and [_search_news] *)

Definition general_query (topic : text) : text := topic ++ txt " trends 2024".
Definition expert_query (topic : text) : text :=
  topic ++ txt " expert analysis insights".
Definition news_query (topic : text) : text := topic ++ txt " latest news 2024".

Definition web_result (U : Py.unicode) (topic : text) (d : dict pyval)
  : search_result :=
  {| title := dict_get d (txt "title") (PStr []);
     content := dict_get d (txt "snippet") (PStr []);
     url := dict_get d (txt "link") (PStr []);
     source := None;
     date := None;
     type_ := web_search;
     relevance :=
       _calculate_relevance U (dict_get d (txt "snippet") (PStr [])) topic |}.

Definition news_result (U : Py.unicode) (topic : text) (d : dict pyval)
  : search_result :=
  {| title := dict_get d (txt "title") (PStr []);
     content := dict_get d (txt "snippet") (PStr []);
     url := dict_get d (txt "link") (PStr []);
     source := Some (dict_get d (txt "source") (PStr []));
     date := Some (dict_get d (txt "date") (PStr []));
     type_ := news;
     relevance :=
       _calculate_relevance U (dict_get d (txt "snippet") (PStr [])) topic |}.

(** The loop [for result in hits: if isinstance(result, dict): append]. *)
Definition format_hits (fmt : dict pyval -> search_result)
    (hits : list raw_hit) : list search_result :=
  flat_map (fun h => match h with RDict d => [fmt d] | ROther => [] end) hits.

Definition by_relevance (a b : search_result) : bool :=
  Qltb (relevance a) (relevance b).

(** The body of the [try] of [_search_web]. *)
Definition search_web_body (U : Py.unicode) (e : env) (topic : text)
    (max_results : Z) : outcome (list search_result) :=
  results <- search e (general_query topic) ;;
  expert_results <- search e (expert_query topic) ;;
  let all_results :=
    format_hits (web_result U topic)
      (Py.slice_to max_results (results ++ expert_results)) in
  Ok (Py.slice_to max_results (Py.sort_desc by_relevance all_results)).

(** [except Exception as e: return []] *)
Definition or_empty {A : Type} (body : outcome (list A)) : outcome (list A) :=
  try_except body (fun _ => Ok []).

Definition _search_web (U : Py.unicode) (e : env) (topic : text)
    (max_results : Z) : outcome (list search_result) :=
  or_empty (search_web_body U e topic max_results).

Definition search_news_body (U : Py.unicode) (e : env) (topic : text)
  : outcome (list search_result) :=
  results <- news_search e (news_query topic) ;;
  Ok (format_hits (news_result U topic) results).

Definition _search_news (U : Py.unicode) (e : env) (topic : text)
  : outcome (list search_result) :=
  or_empty (search_news_body U e topic).

(** *** [_extract_key_findings] *)

Definition finding_keywords (U : Py.unicode) (topic : text) : list text :=
  Py.lower U topic ::
  [txt "trend"; txt "growth"; txt "increase"; txt "innovation"; txt "market"; txt "adoption"].

Definition is_key_sentence (U : Py.unicode) (topic sentence : text) : bool :=
  (30 <? length sentence) &&
  existsb (fun keyword => Py.contains keyword (Py.lower U sentence))
    (finding_keywords U topic).

Definition clean (sentence : text) : text :=
  Py.rstrip_chars (txt ".") (Py.strip sentence).

(** The inner loop over the sentences of one result; it stops ([break]) as
    soon as six findings are held. *)
Fixpoint scan_sentences (U : Py.unicode) (topic : text) (sentences : list text)
    (findings : list text) : list text :=
  match sentences with
  | [] => findings
  | sentence :: rest =>
      if is_key_sentence U topic sentence then
        let clean_sentence := clean sentence in
        if Py.mem clean_sentence findings
        then scan_sentences U topic rest findings
        else
          let findings' := findings ++ [clean_sentence] in
          if 6 <=? length findings' then findings'
          else scan_sentences U topic rest findings'
      else scan_sentences U topic rest findings
  end.

Definition no_len : text := txt "object of type 'NoneType' has no len()".

(** The outer loop; [len(content)] raises [TypeError] on [None]. *)
Fixpoint scan_results (U : Py.unicode) (topic : text)
    (results : list search_result) (findings : list text)
  : outcome (list text) :=
  match results with
  | [] => Ok findings
  | result :: rest =>
      match content result with
      | PNone => Raise no_len
      | PStr c =>
          scan_results U topic rest
            (if 50 <? length c
             then scan_sentences U topic (Py.split_on (txt ". ") c) findings
             else findings)
      end
  end.

Definition _extract_key_findings (U : Py.unicode)
    (results : list search_result) (topic : text) : outcome (list text) :=
  findings <- scan_results U topic (firstn 8 results) [] ;;
  Ok (firstn 6 findings).

(** *** [_extract_trending_keywords] *)

Definition punctuation : text := txt ".,!?()[]{}" ++ [34%N] ++ txt "'-".

Definition stopwords : list text :=
  [txt "this"; txt "that"; txt "with"; txt "from"; txt "they"; txt "have"; txt "been"; txt "will"; txt "would"; txt "could"; txt "should"; txt "there"; txt "their"; txt "where"].

Definition is_keyword (U : Py.unicode) (word : text) : bool :=
  (4 <? length word) && Py.isalpha U word && negb (Py.mem word stopwords).

(** The words of one result, already stripped of punctuation. *)
Definition result_words (U : Py.unicode) (result : search_result) : list text :=
  map (Py.strip_chars punctuation)
    (Py.split
       (Py.lower U (format (title result) ++ txt " " ++ format (content result)))).

Definition count_word (U : Py.unicode) (keyword_counts : dict nat) (word : text)
  : dict nat :=
  if is_keyword U word
  then dict_set keyword_counts word (dict_get keyword_counts word 0 + 1)
  else keyword_counts.

Definition count_result (U : Py.unicode) (keyword_counts : dict nat)
    (result : search_result) : dict nat :=
  fold_left (count_word U) (result_words U result) keyword_counts.

Definition keyword_counts (U : Py.unicode) (results : list search_result)
  : dict nat :=
  fold_left (count_result U) results [].

Definition by_count (a b : text * nat) : bool := snd a <? snd b.

Definition _extract_trending_keywords (U : Py.unicode)
    (results : list search_result) : list text :=
  map fst (firstn 10 (Py.sort_desc by_count (keyword_counts U results))).

(** *** [_generate_summary] *)

Definition not_str (i : nat) : text :=
  txt "sequence item " ++ Py.str_of_nat i ++
  txt ": expected str instance, NoneType found".

(** The list handed to [" ".join]; [join] raises [TypeError] at the first
    item that is not text, naming its position. *)
Fixpoint contents_from (i : nat) (results : list search_result)
  : outcome (list text) :=
  match results with
  | [] => Ok []
  | result :: rest =>
      match content result with
      | PStr c => cs <- contents_from (S i) rest ;; Ok (c :: cs)
      | PNone => Raise (not_str i)
      end
  end.

Definition when (b : bool) (line : text) : list text :=
  if b then [line] else [].

Definition nonempty {A : Type} (l : list A) : bool :=
  match l with
  | [] => false
  | _ => true
  end.

Definition header (topic : text) : text :=
  txt "Research Summary for '" ++ topic ++ txt "':" ++ nl.

Definition closing (topic : text) : text :=
  nl ++ txt "The research indicates " ++ topic ++
  txt " is an active area with substantial industry interest and ongoing developments.".

Definition _generate_summary (U : Py.unicode)
    (web_results news_results : list search_result) (topic : text)
  : outcome text :=
  let found :=
    when (nonempty web_results)
      (bullet ++ txt " Found " ++ Py.str_of_nat (length web_results) ++
       txt " relevant web sources with insights on " ++ topic) ++
    when (nonempty news_results)
      (bullet ++ txt " Discovered " ++ Py.str_of_nat (length news_results) ++
       txt " recent news articles covering latest developments") in
  cs <- contents_from 0 (web_results ++ news_results) ;;
  let all_content := Py.lower U (Py.join (txt " ") cs) in
  let themes :=
    when (Py.contains (txt "growth") all_content)
      (bullet ++ txt " Market growth and expansion trends identified") ++
    when (Py.contains (txt "innovation") all_content)
      (bullet ++ txt " Innovation and technological advancements noted") ++
    when (Py.contains (txt "adoption") all_content)
      (bullet ++ txt " Adoption patterns and user engagement insights found") in
  Ok (Py.join nl ([header topic] ++ found ++ themes ++ [closing topic])).

(** *** [_get_unique_sources] *)

Definition set_add (x : text) (members : list text) : list text :=
  if Py.mem x members then members else members ++ [x].

(** The bare [except:] catches whatever [urlparse] raises. *)
Definition add_source (e : env) (sources : list text)
    (result : search_result) : list text :=
  match url result with
  | PStr u =>
      if truthy (PStr u) then
        match netloc e u with
        | Ok domain =>
            if truthy (PStr domain) then set_add domain sources else sources
        | Raise _ => set_add u sources
        | Abort _ => set_add u sources
        end
      else sources
  | PNone => sources
  end.

Definition _get_unique_sources (e : env) (results : list search_result)
  : list text :=
  firstn 10 (set_order e (fold_left (add_source e) results [])).

(** *** [_generate_fallback_insights] and [_run] *)

Definition _generate_fallback_insights (topic : text) : json :=
  JObj
    [("general_insights",
      JList
        [JStr (topic ++ txt " is an emerging field with significant potential");
         JStr (txt "Industry adoption of " ++ topic ++ txt " is accelerating");
         JStr (txt "Key players are investing heavily in " ++ topic ++
               txt " development")]);
     ("trending_themes",
      JList [JStr (txt "innovation"); JStr (txt "growth"); JStr (txt "adoption");
             JStr (txt "technology"); JStr (txt "market")]);
     ("note",
      JStr (txt "These are general insights due to search limitations. For accurate information, please verify with current sources."))].

Definition optional (k : string) (v : option pyval) : list (string * json) :=
  match v with
  | Some x => [(k, json_of_pyval x)]
  | None => []
  end.

Definition json_of_type (t : result_type) : json :=
  match t with
  | web_search => JStr (txt "web_search")
  | news => JStr (txt "news")
  end.

Definition json_of_result (r : search_result) : json :=
  JObj
    ([("title", json_of_pyval (title r));
      ("content", json_of_pyval (content r));
      ("url", json_of_pyval (url r))] ++
     optional "source" (source r) ++
     optional "date" (date r) ++
     [("type", json_of_type (type_ r)); ("relevance", JFloat (relevance r))]).

Definition counted (results : list search_result) : json :=
  JObj [("count", JInt (length results));
        ("results", JList (map json_of_result results))].

(** The body of the [try] of [_run]: the two searches, then the
    dictionary [research_data], its entries computed in the order they are
    written. *)
Definition research_data (U : Py.unicode) (e : env) (topic : text)
    (max_results : Z) : outcome json :=
  web_results <- _search_web U e topic max_results ;;
  news_results <- _search_news U e topic ;;
  key_findings <- _extract_key_findings U (web_results ++ news_results) topic ;;
  let trending_keywords :=
    _extract_trending_keywords U (web_results ++ news_results) in
  summary <- _generate_summary U web_results news_results topic ;;
  let sources := _get_unique_sources e (web_results ++ news_results) in
  Ok (JObj
        [("topic", JStr topic);
         ("search_performed_at", JStr (now e));
         ("web_results", counted web_results);
         ("news_results", counted news_results);
         ("key_findings", JList (map JStr key_findings));
         ("trending_keywords", JList (map JStr trending_keywords));
         ("summary", JStr summary);
         ("sources", JList (map JStr sources))]).

Definition fallback (topic : text) (msg : text) : json :=
  JObj [("error", JStr (txt "Web search failed: " ++ msg));
        ("topic", JStr topic);
        ("fallback_insights", _generate_fallback_insights topic)].

(** [_run]: the object serialised by [json.dumps], or the exception that
    leaves the method. *)
Definition _run (U : Py.unicode) (e : env) (topic : text) (max_results : Z)
  : outcome json :=
  try_except (research_data U e topic max_results)
    (fun msg => Ok (fallback topic msg)).

(** The two shapes of a returned object, told apart by their fields. *)
Definition report_fields : list string :=
  ["topic"; "search_performed_at"; "web_results"; "news_results";
   "key_findings"; "trending_keywords"; "summary"; "sources"].

Definition is_research_report (j : json) : Prop := keys j = report_fields.

Definition is_fallback_report (j : json) : Prop :=
  keys j = ["error"; "topic"; "fallback_insights"].

(* ================================================================= *)
(** ** Notions used to state the properties *)

Definition Qnat (n : nat) : Q := inject_Z (Z.of_nat n).

(** [w] occurs in [s] once both are put in lower case. *)
Definition contains_nocase (U : Py.unicode) (w s : text) : bool :=
  Py.contains (Py.lower U w) (Py.lower U s).

(** Some piece of [s] is [w] up to the case of the letters: [w] is a
    case-insensitive substring of [s]. *)
Definition occurs_ignoring_case (U : Py.unicode) (w s : text) : Prop :=
  exists before piece after,
    s = before ++ piece ++ after /\ Py.lower U piece = Py.lower U w.

(** A snippet that contains every word of the topic as a
    case-insensitive substring scores at least the number of words. *)
Definition scores_every_word (U : Py.unicode) (snippet topic : text) : Prop :=
  Forall (fun w => occurs_ignoring_case U w snippet) (topic_words U topic) ->
  (Qnat (length (topic_words U topic)) <=
   _calculate_relevance U (PStr snippet) topic)%Q.

(** How many of [ws] occur in [s]. *)
Definition count_in (s : text) (ws : list text) : nat :=
  length (filter (fun w => Py.contains w s) ws).

(** The ranking of the web hits as the specification words it: every hit
    of both queries is scored, the whole list is sorted by descending
    relevance, and only then cut to [max_results]. *)
Definition rank_all_then_cut (U : Py.unicode) (topic : text) (max_results : Z)
    (results expert_results : list raw_hit) : list search_result :=
  Py.slice_to max_results
    (Py.sort_desc by_relevance
       (format_hits (web_result U topic) (results ++ expert_results))).

(** The ranking of the web hits as [_search_web] computes it once both
    queries have answered. *)
Definition cut_then_rank (U : Py.unicode) (topic : text) (max_results : Z)
    (results expert_results : list raw_hit) : list search_result :=
  Py.slice_to max_results
    (Py.sort_desc by_relevance
       (format_hits (web_result U topic)
          (Py.slice_to max_results (results ++ expert_results)))).

(** A failure of one web query leaves the hits of the other one in the
    web results: the failed query counts as an empty list. *)
Definition absorbs_each_web_query (U : Py.unicode) (e : env) (topic : text)
    (max_results : Z) : Prop :=
  (forall msg hits,
      search e (general_query topic) = Raise msg ->
      search e (expert_query topic) = Ok hits ->
      _search_web U e topic max_results =
      Ok (cut_then_rank U topic max_results [] hits)) /\
  (forall msg hits,
      search e (expert_query topic) = Raise msg ->
      search e (general_query topic) = Ok hits ->
      _search_web U e topic max_results =
      Ok (cut_then_rank U topic max_results hits [])).

(** No query of the backend raises outside class [Exception]. *)
Definition backend_raises_exceptions_only (e : env) : Prop :=
  forall q name, search e q <> Abort name /\ news_search e q <> Abort name.

(** A call returns exactly one of the two reports and raises nothing. *)
Definition returns_one_report (U : Py.unicode) (e : env) (topic : text)
    (max_results : Z) : Prop :=
  exists j,
    _run U e topic max_results = Ok j /\
    ((is_research_report j /\ ~ is_fallback_report j) \/
     (is_fallback_report j /\ ~ is_research_report j)).


(** [findings.append(c)] unless [c] is already there. *)
Definition add_new (findings : list text) (c : text) : list text :=
  if Py.mem c findings then findings else findings ++ [c].

Definition has_text (result : search_result) : Prop :=
  content result <> PNone.


(** Trending keywords: the words of all results in the order they are
    counted, the frequency of a word and the place of its first
    occurrence. *)
Definition all_words (U : Py.unicode) (results : list search_result)
  : list text :=
  flat_map (result_words U) results.

Definition text_eq_dec : forall a b : text, {a = b} + {a <> b} :=
  list_eq_dec N.eq_dec.

Definition frequency (words : list text) (w : text) : nat :=
  count_occ text_eq_dec words w.

Fixpoint first_index (w : text) (words : list text) : nat :=
  match words with
  | [] => 0
  | x :: words' => if text_eqb x w then 0 else S (first_index w words')
  end.

(** [a] is ranked before [b]: it is more frequent, or as frequent and
    seen first. *)
Definition ranks_before (words : list text) (a b : text) : Prop :=
  frequency words b < frequency words a \/
  (frequency words a = frequency words b /\
   first_index a words < first_index b words).

(** The fields of the fallback payload as the interface lists them. *)
Definition fallback_fields_as_listed (j : json) : Prop :=
  keys j = ["error"; "topic"; "fallback_insights"] /\
  exists insights,
    field "fallback_insights" j = Some insights /\
    keys insights = ["general_insights"; "trending_themes"].

(** Descending by [key]; equal keys in the order [before]. *)
Definition ordered_desc {A : Type} (key : A -> nat) (before : A -> A -> Prop)
    (a b : A) : Prop :=
  key b < key a \/ (key a = key b /\ before a b).


(** What the tally holds after the words [ws]: one entry per keyword met,
    with its frequency, the keywords in the order of their first
    occurrence. *)
Record tally_of (U : Py.unicode) (ws : list text) (d : dict nat) : Prop := {
  tally_nodup : NoDup (map fst d);
  tally_entries : forall w c,
      In (w, c) d -> is_keyword U w = true /\ In w ws /\ c = frequency ws w;
  tally_complete : forall w,
      In w ws -> is_keyword U w = true -> In w (map fst d);
  tally_order :
      StronglySorted (fun a b => first_index a ws < first_index b ws) (map fst d)
}.

(** [a] may stand before [b] in a list sorted by descending relevance. *)
Definition not_below (a b : search_result) : Prop :=
  (relevance b <= relevance a)%Q.

(** A text with no leading code point in [p]. *)
Definition no_lead (p : N -> bool) (s : text) : Prop :=
  match s with
  | [] => True
  | c :: _ => p c = false
  end.

(** A word without a blank. *)
Definition no_blank (k : text) : bool :=
  forallb (fun c => negb (c =? Py.blank)%N) k.

(** A text of ASCII code points without a capital letter. *)
Definition plain (k : text) : bool :=
  forallb (fun c => (c <? 128)%N && negb (Py.ascii_upper c)) k.

(** The content of [r] is a text in which [k] occurs, whatever the case. *)
Definition mentions (U : Py.unicode) (k : text) (r : search_result) : Prop :=
  exists c, content r = PStr c /\ contains_nocase U k c = true.

(** [d] is the domain of the url of [r], or the url itself when
    [urlparse] raised on it; neither the url nor [d] is empty. *)
Definition source_of (e : env) (r : search_result) (d : text) : Prop :=
  exists u,
    url r = PStr u /\ u <> [] /\ d <> [] /\
    (netloc e u = Ok d \/
     (d = u /\ exists msg, netloc e u = Raise msg \/ netloc e u = Abort msg)).

(** A code point fixed by the lower-case mapping, the capital sigma
    apart. *)
Definition stable (U : Py.unicode) (c : N) : Prop :=
  Py.tolower U c = [c] /\ c <> Py.capital_sigma.

(** *** The tables of three blocks *)

Definition between (lo hi c : N) : bool := ((lo <=? c) && (c <=? hi))%N.

Definition upper_case (c : N) : bool :=
  between 65 90 c ||
  (between 192 222 c && negb (c =? 215)%N) ||
  (between 913 939 c && negb (c =? 930)%N).

Definition letter (c : N) : bool :=
  between 65 90 c || between 97 122 c ||
  (c =? 170)%N || (c =? 181)%N || (c =? 186)%N ||
  between 192 214 c || between 216 246 c || between 248 255 c ||
  between 913 929 c || between 931 974 c.

Definition ignorable (c : N) : bool :=
  Py.char_in [39; 46; 58; 94; 96; 168; 173; 175; 180; 183; 184]%N c.

Definition to_lower_case (c : N) : text :=
  if upper_case c then [(c + 32)%N] else [c].

Lemma upper_case_spec (c : N) :
  upper_case c = true <->
  ((65 <= c <= 90) \/ (192 <= c <= 222 /\ c <> 215) \/
   (913 <= c <= 939 /\ c <> 930))%N.
Proof.
  unfold upper_case, between.
  rewrite !orb_true_iff, !andb_true_iff, !negb_true_iff, !N.leb_le, !N.eqb_neq.
  tauto.
Qed.

Lemma to_lower_case_ascii (c : N) :
  (c < 128)%N -> to_lower_case c = [Py.ascii_lower c].
Proof.
  intros Hc. unfold to_lower_case, Py.ascii_lower.
  assert (H : upper_case c = Py.ascii_upper c).
  { apply eq_true_iff_eq. rewrite upper_case_spec. unfold Py.ascii_upper.
    rewrite andb_true_iff, !N.leb_le. lia. }
  rewrite H. destruct (Py.ascii_upper c); reflexivity.
Qed.

Lemma to_lower_case_stable (c d : N) :
  In d (to_lower_case c) ->
  to_lower_case d = [d] /\ d <> Py.capital_sigma.
Proof.
  unfold to_lower_case, Py.capital_sigma.
  destruct (upper_case c) eqn:Hc; intros [<- | []].
  - apply upper_case_spec in Hc.
    assert (Hd : upper_case (c + 32) = false).
    { apply not_true_iff_false. rewrite upper_case_spec. lia. }
    rewrite Hd. split; [reflexivity | lia].
  - rewrite Hc. split; [reflexivity |].
    intros ->. discriminate Hc.
Qed.

(** The tables on Basic Latin, the Latin-1 Supplement (U+0000 to U+00FF)
    and the Greek letters from U+0391 to U+03CE.  The texts of the
    examples below are written with these code points only; a code point
    outside them is given no case and is not a letter. *)
Definition latin_greek : Py.unicode :=
  {| Py.alpha := letter;
     Py.tolower := to_lower_case;
     Py.cased := letter;
     Py.case_ignorable := ignorable;
     Py.tolower_ascii := to_lower_case_ascii;
     Py.blank_not_cased := eq_refl;
     Py.blank_not_ignorable := eq_refl;
     Py.tolower_stable := to_lower_case_stable;
     Py.sigma_stable := conj eq_refl eq_refl |}.

(** *** Sample backends *)

(** A backend that answers the general query of topic "ai" with [general],
    every other web query with [expert] and the news query with [latest]. *)
Definition sample_env (general expert latest : outcome (list raw_hit)) : env :=
  {| search := fun q =>
       if text_eqb q (general_query (txt "ai")) then general else expert;
     news_search := fun _ => latest;
     now := txt "2024-06-01T12:00:00";
     netloc := fun u => Ok u;
     set_order := fun l => l;
     set_order_perm := fun l => Permutation_refl l |}.

Definition gardening : dict pyval :=
  [(txt "title", PStr (txt "Gardening"));
   (txt "snippet", PStr (txt "unrelated gardening tips"));
   (txt "link", PStr (txt "https://garden.example/tips"))].

Definition ai_report : dict pyval :=
  [(txt "title", PStr (txt "AI"));
   (txt "snippet", PStr (txt "AI trend report 2024"));
   (txt "link", PStr (txt "https://ai.example/report"))].

Definition no_snippet : dict pyval :=
  [(txt "title", PStr (txt "Untitled")); (txt "snippet", PNone)].

Definition growth_twice : search_result :=
  web_result latin_greek (txt "ai")
    [(txt "snippet",
      PStr (txt "Market growth is strong this year. Market growth is strong this year. The adoption of AI keeps rising."))].

Definition growth_and_adoption : search_result :=
  web_result latin_greek (txt "ai")
    [(txt "snippet",
      PStr (txt "Market growth is strong this year. Short one. The adoption of AI keeps rising..."))].

Definition short_trend : search_result :=
  web_result latin_greek (txt "ai")
    [(txt "snippet", PStr (txt "The market trend is clearly up this year"))].

(* ================================================================= *)
(** ** Text lemmas *)

Lemma text_eqb_eq (a b : text) : text_eqb a b = true <-> a = b.
Proof.
  revert b. induction a as [| x a IH]; intros [| y b]; simpl;
    try (split; (reflexivity || discriminate)).
  rewrite andb_true_iff, N.eqb_eq, IH. split.
  - intros [-> ->]. reflexivity.
  - intros H. injection H as -> ->. now split.
Qed.

Lemma text_eqb_refl (a : text) : text_eqb a a = true.
Proof. now apply text_eqb_eq. Qed.

Lemma text_eqb_spec (a b : text) : reflect (a = b) (text_eqb a b).
Proof. apply iff_reflect. symmetry. apply text_eqb_eq. Qed.

Lemma contains_in_empty (w : text) : w <> [] -> Py.contains w [] = false.
Proof. destruct w; simpl; [congruence | reflexivity]. Qed.

Lemma cons_word_Forall (P : text -> Prop) (w : text) (ws : list text) :
  (w <> [] -> P w) -> Forall P ws -> Forall P (Py.cons_word w ws).
Proof.
  intros Hw Hws. destruct w; simpl; [assumption |].
  constructor; [apply Hw; discriminate | assumption].
Qed.

(** The words cut out of a text are not empty, and their code points
    are code points of the text. *)
Lemma split_aux_words (P : N -> Prop) (s : text) :
  Forall P s ->
  Forall P (fst (Py.split_aux s)) /\
  Forall (fun w => Forall P w /\ w <> []) (snd (Py.split_aux s)).
Proof.
  induction 1 as [| c s Hc _ [Hw Hws]]; simpl.
  - split; constructor.
  - destruct (Py.split_aux s) as [w ws]; simpl in *.
    destruct (Py.isspace c); simpl.
    + split; [constructor |].
      apply cons_word_Forall; [intros Hne; split; assumption | assumption].
    + split; [now constructor | assumption].
Qed.

Lemma split_words (P : N -> Prop) (s : text) :
  Forall P s -> Forall (fun w => Forall P w /\ w <> []) (Py.split s).
Proof.
  intros H. unfold Py.split.
  destruct (split_aux_words P s H) as [Hw Hws].
  destruct (Py.split_aux s) as [w ws]; simpl in *.
  apply cons_word_Forall; [intros Hne; split; assumption | assumption].
Qed.

Lemma split_nonempty (s : text) : Forall (fun w => w <> []) (Py.split s).
Proof.
  assert (H : Forall (fun _ : N => True) s) by (apply Forall_forall; trivial).
  apply split_words in H. rewrite Forall_forall in *.
  intros w Hw. now destruct (H w Hw).
Qed.

(* ================================================================= *)
(** ** Relevance *)

Lemma Qnat_S (n : nat) : (Qnat (S n) == Qnat n + 1)%Q.
Proof.
  unfold Qnat. rewrite Nat2Z.inj_succ, <- Z.add_1_r, inject_Z_plus.
  reflexivity.
Qed.

Lemma Qnat_nonneg (n : nat) : (0 <= Qnat n)%Q.
Proof.
  unfold Qnat. change 0%Q with (inject_Z 0).
  rewrite <- Zle_Qle. lia.
Qed.

Lemma Qnat_le (n m : nat) : n <= m -> (Qnat n <= Qnat m)%Q.
Proof. intros H. unfold Qnat. rewrite <- Zle_Qle. lia. Qed.

Lemma Qnat_add (n m : nat) : (Qnat (n + m) == Qnat n + Qnat m)%Q.
Proof. unfold Qnat. now rewrite Nat2Z.inj_add, inject_Z_plus. Qed.

Lemma Qnat_zero_iff (n : nat) : (Qnat n == 0)%Q <-> n = 0.
Proof.
  unfold Qnat. change 0%Q with (inject_Z 0). rewrite inject_Z_injective. lia.
Qed.

Lemma count_in_le (s : text) (ws : list text) : count_in s ws <= length ws.
Proof. apply filter_length_le. Qed.

Lemma count_in_all (s : text) (ws : list text) :
  Forall (fun w => Py.contains w s = true) ws -> count_in s ws = length ws.
Proof.
  unfold count_in. induction 1 as [| w ws Hw _ IH]; simpl; [reflexivity |].
  rewrite Hw. simpl. now rewrite IH.
Qed.

Lemma count_in_zero (s : text) (ws : list text) :
  count_in s ws = 0 <-> Forall (fun w => Py.contains w s = false) ws.
Proof.
  unfold count_in. induction ws as [| w ws IH]; simpl.
  - split; [constructor | reflexivity].
  - destruct (Py.contains w s) eqn:Hw; simpl.
    + split; [discriminate |]. intros H. inversion H; congruence.
    + rewrite IH. split; [now constructor | intros H; now inversion H].
Qed.

(** Each loop of [_calculate_relevance] adds [amount] once per word found. *)
Lemma fold_add_if_in (amount : Q) (s : text) (ws : list text) (acc : Q) :
  (fold_left (add_if_in amount s) ws acc == acc + amount * Qnat (count_in s ws))%Q.
Proof.
  revert acc. induction ws as [| w ws IH]; intros acc; simpl.
  - unfold count_in, Qnat. simpl. ring.
  - rewrite IH. unfold add_if_in, count_in. simpl.
    destruct (Py.contains w s); simpl.
    + fold (count_in s ws). rewrite Qnat_S. ring.
    + reflexivity.
Qed.

Lemma relevance_of_text (U : Py.unicode) (c : text) (topic : text) :
  c <> [] ->
  (_calculate_relevance U (PStr c) topic ==
   Qnat (count_in (Py.lower U c) (topic_words U topic)) +
   (1 # 2) * Qnat (count_in (Py.lower U c) bonus_keywords))%Q.
Proof.
  intros Hc. destruct c as [| a c]; [congruence |].
  unfold _calculate_relevance. rewrite !fold_add_if_in. ring.
Qed.

(** C6, as stated, fails: the snippet ΟΔΟΣΑ contains the one word of the
    topic ΟΔΟΣ whatever the case, and scores 0.0; in lower case the topic
    ends in a final sigma that the snippet does not have. *)
Lemma final_sigma_hides_a_word :
  ~ scores_every_word latin_greek (txt "ΟΔΟΣΑ") (txt "ΟΔΟΣ").
Proof.
  unfold scores_every_word. intros H.
  assert (Hocc : Forall (fun w => occurs_ignoring_case latin_greek w (txt "ΟΔΟΣΑ"))
                   (topic_words latin_greek (txt "ΟΔΟΣ"))).
  { constructor; [| constructor].
    exists [], (txt "ΟΔΟΣ"), (txt "Α"). split; reflexivity. }
  specialize (H Hocc). vm_compute in H. apply H. reflexivity.
Qed.

(** C6, amended: a snippet whose lower-case form contains every word of
    the topic scores at least the number of words of the topic. *)
Theorem relevance_at_least_word_count (U : Py.unicode) (S T : text) :
  Forall (fun w => Py.contains w (Py.lower U S) = true) (topic_words U T) ->
  (Qnat (length (topic_words U T)) <= _calculate_relevance U (PStr S) T)%Q.
Proof.
  intros Hin. destruct S as [| a S].
  - destruct (topic_words U T) as [| w ws] eqn:Hws.
    + simpl. apply Qle_refl.
    + exfalso. pose proof (split_nonempty (Py.lower U T)) as Hne.
      unfold topic_words in Hws. rewrite Hws in Hne.
      inversion Hne as [| ? ? Hw _]; subst.
      inversion Hin as [| ? ? Hc _]; subst.
      change (Py.lower U []) with (@nil N) in Hc.
      rewrite contains_in_empty in Hc by assumption. discriminate.
  - rewrite relevance_of_text by discriminate.
    rewrite (count_in_all _ _ Hin).
    pose proof (Qnat_nonneg (count_in (Py.lower U (a :: S)) bonus_keywords)).
    lra.
Qed.

Lemma relevance_at_least_word_count_witness :
  Forall (fun w => Py.contains w (Py.lower latin_greek (txt "AI Systems trend")) = true)
    (topic_words latin_greek (txt "ai systems")) /\
  (Qnat (length (topic_words latin_greek (txt "ai systems"))) <=
   _calculate_relevance latin_greek (PStr (txt "AI Systems trend")) (txt "ai systems"))%Q.
Proof.
  assert (H : Forall (fun w => Py.contains w (Py.lower latin_greek (txt "AI Systems trend")) = true)
                (topic_words latin_greek (txt "ai systems"))).
  { repeat constructor. }
  split; [exact H | exact (relevance_at_least_word_count _ _ _ H)].
Defined.

(** C10: the relevance of any snippet is a whole number of halves, is not
    negative and is at most the number of topic words plus 4.5, which is
    one half per entry of the nine bonus keywords. *)
Theorem relevance_range (U : Py.unicode) (snippet : pyval) (T : text) :
  (exists k : nat, _calculate_relevance U snippet T == Qnat k * (1 # 2))%Q /\
  (0 <= _calculate_relevance U snippet T)%Q /\
  (_calculate_relevance U snippet T <= Qnat (length (topic_words U T)) + (9 # 2))%Q /\
  ((9 # 2) == (1 # 2) * Qnat (length bonus_keywords))%Q.
Proof.
  assert (Hzero : forall q : Q, (q == 0)%Q ->
            (exists k : nat, q == Qnat k * (1 # 2))%Q /\ (0 <= q)%Q /\
            (q <= Qnat (length (topic_words U T)) + (9 # 2))%Q).
  { intros q Hq. split; [exists 0; rewrite Hq; reflexivity |].
    pose proof (Qnat_nonneg (length (topic_words U T))). lra. }
  split; [| split; [| split]]; try reflexivity;
    destruct snippet as [[| a c] |];
    try (apply (Hzero 0%Q); reflexivity).
  - exists (2 * count_in (Py.lower U (a :: c)) (topic_words U T) +
            count_in (Py.lower U (a :: c)) bonus_keywords).
    rewrite relevance_of_text by discriminate.
    rewrite Qnat_add. replace (2 * count_in (Py.lower U (a :: c)) (topic_words U T))
      with (count_in (Py.lower U (a :: c)) (topic_words U T) +
            count_in (Py.lower U (a :: c)) (topic_words U T)) by lia.
    rewrite Qnat_add. ring.
  - rewrite relevance_of_text by discriminate.
    pose proof (Qnat_nonneg (count_in (Py.lower U (a :: c)) (topic_words U T))).
    pose proof (Qnat_nonneg (count_in (Py.lower U (a :: c)) bonus_keywords)).
    lra.
  - rewrite relevance_of_text by discriminate.
    pose proof (Qnat_le _ _ (count_in_le (Py.lower U (a :: c)) (topic_words U T))).
    pose proof (Qnat_le _ _ (count_in_le (Py.lower U (a :: c)) bonus_keywords)) as Hb.
    change (Qnat (length bonus_keywords)) with 9%Q in Hb.
    lra.
Qed.

(** A text snippet scores 0.0 exactly when it is empty or its lower-case
    form contains no word of the topic and no bonus keyword. *)
Theorem relevance_zero_iff (U : Py.unicode) (c T : text) :
  (_calculate_relevance U (PStr c) T == 0)%Q <->
  c = [] \/
  (Forall (fun w => Py.contains w (Py.lower U c) = false) (topic_words U T) /\
   Forall (fun k => Py.contains k (Py.lower U c) = false) bonus_keywords).
Proof.
  destruct c as [| a c].
  - split; [now left | reflexivity].
  - rewrite relevance_of_text by discriminate.
    rewrite <- !count_in_zero.
    pose proof (Qnat_nonneg (count_in (Py.lower U (a :: c)) (topic_words U T))) as H1.
    pose proof (Qnat_nonneg (count_in (Py.lower U (a :: c)) bonus_keywords)) as H2.
    split.
    + intros H. right. split; apply Qnat_zero_iff; lra.
    + intros [Hc | [Ht Hb]]; [discriminate |]. rewrite Ht, Hb.
      reflexivity.
Qed.

Lemma relevance_zero_iff_witness :
  (_calculate_relevance latin_greek (PStr (txt "unrelated gardening tips"))
     (txt "ai") == 0)%Q.
Proof.
  apply (proj2 (relevance_zero_iff latin_greek (txt "unrelated gardening tips")
                  (txt "ai"))).
  right. split; repeat constructor.
Defined.

(** Beyond ASCII the score follows the lower case of the interpreter:
    "l'école" holds the one word of the topic "École". *)
Example relevance_beyond_ascii :
  (_calculate_relevance latin_greek (PStr (txt "l'école")) (txt "École") == 1)%Q.
Proof. vm_compute. reflexivity. Qed.

(** A no-break space (U+00A0) separates two words of a topic, and the
    upper bound of the score is reached: two words and nine bonus
    keywords give 6.5. *)
Example relevance_with_no_break_space :
  let topic := txt "AI" ++ [160%N] ++ txt "ML" in
  topic_words latin_greek topic = [txt "ai"; txt "ml"] /\
  (_calculate_relevance latin_greek
     (PStr (txt "ai ml 2025 2024 2023 trend growth increase statistics data report"))
     topic == 13 # 2)%Q.
Proof. split; vm_compute; reflexivity. Qed.

(* ================================================================= *)
(** ** Web results *)

Lemma Ok_inj {A : Type} (a b : A) : Ok a = Ok b -> a = b.
Proof. congruence. Qed.

Lemma search_web_both_answer (U : Py.unicode) (e : env) (topic : text)
    (max_results : Z) (results expert_results : list raw_hit) :
  search e (general_query topic) = Ok results ->
  search e (expert_query topic) = Ok expert_results ->
  _search_web U e topic max_results =
  Ok (cut_then_rank U topic max_results results expert_results).
Proof.
  intros Hg Hx. unfold _search_web, search_web_body. now rewrite Hg, Hx.
Qed.

(** [_search_web] gives back the name of a non-[Exception] raised by a
    query, or no result after an [Exception], or the ranking of the hits
    of both queries. *)
Lemma search_web_cases (U : Py.unicode) (e : env) (topic : text)
    (max_results : Z) :
  (exists name,
      _search_web U e topic max_results = Abort name /\
      (search e (general_query topic) = Abort name \/
       search e (expert_query topic) = Abort name)) \/
  _search_web U e topic max_results = Ok [] \/
  exists results expert_results,
    search e (general_query topic) = Ok results /\
    search e (expert_query topic) = Ok expert_results /\
    _search_web U e topic max_results =
    Ok (cut_then_rank U topic max_results results expert_results).
Proof.
  unfold _search_web, search_web_body.
  destruct (search e (general_query topic)) as [results | msg | name];
    [| right; now left | left; exists name; split; [reflexivity | now left]].
  destruct (search e (expert_query topic)) as [expert_results | msg | name];
    [| right; now left | left; exists name; split; [reflexivity | now right]].
  right. right. exists results, expert_results. repeat split.
Qed.

Lemma search_web_returned (U : Py.unicode) (e : env) (topic : text)
    (max_results : Z) (web_results : list search_result) :
  _search_web U e topic max_results = Ok web_results ->
  web_results = [] \/
  exists results expert_results,
    search e (general_query topic) = Ok results /\
    search e (expert_query topic) = Ok expert_results /\
    web_results = cut_then_rank U topic max_results results expert_results.
Proof.
  intros H.
  destruct (search_web_cases U e topic max_results)
    as [[name [Ha _]] | [He | [results [expert_results [Hg [Hx Hr]]]]]].
  - rewrite Ha in H. discriminate H.
  - rewrite He in H. apply Ok_inj in H. now left.
  - rewrite Hr in H. apply Ok_inj in H. right.
    exists results, expert_results. now repeat split.
Qed.

(** C1: with one hit wanted, an unrelated hit of the general query and a
    relevant hit of the expert query, [_search_web] returns the unrelated
    hit: the expert hit is cut off before it is scored, while ranking all
    hits first returns the expert hit. *)
Theorem search_web_cuts_before_ranking :
  let U := latin_greek in
  let e := sample_env (Ok [RDict gardening]) (Ok [RDict ai_report]) (Ok []) in
  _search_web U e (txt "ai") 1 = Ok [web_result U (txt "ai") gardening] /\
  rank_all_then_cut U (txt "ai") 1 [RDict gardening] [RDict ai_report] =
    [web_result U (txt "ai") ai_report] /\
  (relevance (web_result U (txt "ai") gardening) == 0)%Q /\
  (relevance (web_result U (txt "ai") ai_report) == 5 # 2)%Q.
Proof. repeat split. Qed.

(** C2, as stated, fails: when the general query raises and the expert
    query answers with one hit, the web results are empty. *)
Lemma one_failed_query_empties_web_results :
  ~ absorbs_each_web_query latin_greek
      (sample_env (Raise (txt "timeout")) (Ok [RDict ai_report]) (Ok []))
      (txt "ai") 5.
Proof.
  intros [H _].
  specialize (H (txt "timeout") [RDict ai_report] eq_refl eq_refl).
  discriminate H.
Qed.

(** C2, amended: when either web query raises an [Exception], the web
    results are empty, whatever the other query answered (the expert
    query is issued only once the general query is over, so for the
    expert query the general one raised nothing outside that class); when
    both answer, the web results are the ranking of their hits. *)
Theorem search_web_all_or_nothing (U : Py.unicode) (e : env) (topic : text)
    (max_results : Z) :
  ((exists msg, search e (general_query topic) = Raise msg) \/
   ((exists msg, search e (expert_query topic) = Raise msg) /\
    forall name, search e (general_query topic) <> Abort name) ->
   _search_web U e topic max_results = Ok []) /\
  (forall results expert_results,
      search e (general_query topic) = Ok results ->
      search e (expert_query topic) = Ok expert_results ->
      _search_web U e topic max_results =
      Ok (cut_then_rank U topic max_results results expert_results)).
Proof.
  split.
  - unfold _search_web, search_web_body.
    intros [[msg H] | [[msg H] Hg]]; rewrite H; simpl.
    + reflexivity.
    + destruct (search e (general_query topic)) as [hits | msg' | name];
        [reflexivity | reflexivity | now destruct (Hg name)].
  - intros results expert_results. apply search_web_both_answer.
Qed.

Lemma search_web_all_or_nothing_witness :
  _search_web latin_greek
    (sample_env (Ok [RDict gardening]) (Raise (txt "timeout")) (Ok []))
    (txt "ai") 5 = Ok [].
Proof.
  apply (proj1 (search_web_all_or_nothing latin_greek
                  (sample_env (Ok [RDict gardening]) (Raise (txt "timeout")) (Ok []))
                  (txt "ai") 5)).
  right. split; [exists (txt "timeout"); reflexivity |].
  intros name. discriminate.
Defined.

Section SortDescPermutation.
Context {A : Type} (lt : A -> A -> bool).

Lemma insert_desc_perm (x : A) (l : list A) :
  Permutation (Py.insert_desc lt x l) (x :: l).
Proof.
  induction l as [| y l IH]; simpl; [reflexivity |].
  destruct (lt x y); [| reflexivity].
  rewrite IH. apply perm_swap.
Qed.

Lemma sort_desc_perm (l : list A) : Permutation (Py.sort_desc lt l) l.
Proof.
  induction l as [| x l IH]; simpl; [reflexivity |].
  rewrite insert_desc_perm. now constructor.
Qed.
End SortDescPermutation.

Lemma Qltb_true (x y : Q) : Qltb x y = true -> (x <= y)%Q.
Proof.
  unfold Qltb. rewrite negb_true_iff. intros H.
  destruct (Qlt_le_dec x y) as [Hlt | Hle]; [now apply Qlt_le_weak |].
  apply Qle_bool_iff in Hle. congruence.
Qed.

Lemma Qltb_false (x y : Q) : Qltb x y = false -> (y <= x)%Q.
Proof.
  unfold Qltb. rewrite negb_false_iff. apply Qle_bool_iff.
Qed.

Lemma StronglySorted_firstn {A : Type} (R : A -> A -> Prop) (n : nat)
    (l : list A) :
  StronglySorted R l -> StronglySorted R (firstn n l).
Proof.
  intros Hs. revert n. induction Hs as [| a l Hs IH Hall]; intros [| n]; simpl;
    try constructor.
  - apply IH.
  - rewrite Forall_forall in *. intros b Hb. apply Hall.
    rewrite <- (firstn_skipn n l). apply in_or_app. now left.
Qed.

Lemma insert_by_relevance_sorted (x : search_result) (l : list search_result) :
  StronglySorted not_below l ->
  StronglySorted not_below (Py.insert_desc by_relevance x l).
Proof.
  intros Hs. induction Hs as [| y l Hs IH Hall]; simpl.
  - repeat constructor.
  - unfold by_relevance at 1. destruct (Qltb (relevance x) (relevance y)) eqn:Hlt.
    + apply Qltb_true in Hlt. constructor; [exact IH |].
      rewrite Forall_forall in *. intros z Hz.
      apply (Permutation_in _ (insert_desc_perm by_relevance x l)) in Hz.
      destruct Hz as [<- | Hz]; [exact Hlt | now apply Hall].
    + apply Qltb_false in Hlt. constructor; [now constructor |].
      constructor; [exact Hlt |].
      rewrite Forall_forall in *. intros z Hz. unfold not_below in *.
      apply Qle_trans with (relevance y); [now apply Hall | exact Hlt].
Qed.

Lemma sort_by_relevance_sorted (l : list search_result) :
  StronglySorted not_below (Py.sort_desc by_relevance l).
Proof.
  induction l as [| x l IH]; simpl; [constructor |].
  now apply insert_by_relevance_sorted.
Qed.

Lemma slice_to_firstn {A : Type} (n : Z) (l : list A) :
  exists k, Py.slice_to n l = firstn k l.
Proof.
  unfold Py.slice_to. destruct (0 <=? n)%Z; eexists; reflexivity.
Qed.

Lemma In_slice_to {A : Type} (n : Z) (l : list A) (x : A) :
  In x (Py.slice_to n l) -> In x l.
Proof.
  destruct (slice_to_firstn n l) as [k ->]. intros H.
  rewrite <- (firstn_skipn k l). apply in_or_app. now left.
Qed.

Lemma search_web_returns (U : Py.unicode) (e : env) (topic : text)
    (max_results : Z) :
  (forall name, search e (general_query topic) <> Abort name) ->
  (forall name, search e (expert_query topic) <> Abort name) ->
  exists web_results, _search_web U e topic max_results = Ok web_results.
Proof.
  intros Hg Hx.
  destruct (search_web_cases U e topic max_results)
    as [[name [_ [Ha | Ha]]] | [He | [results [expert_results [_ [_ Hr]]]]]].
  - now destruct (Hg name).
  - now destruct (Hx name).
  - exists []. exact He.
  - eexists. exact Hr.
Qed.

(** The web results are in descending order of relevance, whatever the
    backend answers and whatever [max_results] is; and [_search_web]
    returns its list whenever neither web query raises outside class
    [Exception]. *)
Theorem search_web_descending (U : Py.unicode) (e : env) (topic : text)
    (max_results : Z) :
  (forall web_results,
      _search_web U e topic max_results = Ok web_results ->
      StronglySorted (fun a b => (relevance b <= relevance a)%Q) web_results) /\
  ((forall name, search e (general_query topic) <> Abort name) ->
   (forall name, search e (expert_query topic) <> Abort name) ->
   exists web_results, _search_web U e topic max_results = Ok web_results).
Proof.
  split; [| apply search_web_returns].
  intros web_results H.
  destruct (search_web_returned U e topic max_results web_results H)
    as [-> | [results [expert_results [_ [_ ->]]]]]; [constructor |].
  unfold cut_then_rank.
  destruct (slice_to_firstn max_results
              (Py.sort_desc by_relevance
                 (format_hits (web_result U topic)
                    (Py.slice_to max_results (results ++ expert_results)))))
    as [k ->].
  apply StronglySorted_firstn. apply sort_by_relevance_sorted.
Qed.

Lemma search_web_descending_witness :
  StronglySorted (fun a b => (relevance b <= relevance a)%Q)
    [web_result latin_greek (txt "ai") ai_report;
     web_result latin_greek (txt "ai") gardening].
Proof.
  apply (proj1 (search_web_descending latin_greek
                  (sample_env (Ok [RDict gardening]) (Ok [RDict ai_report]) (Ok []))
                  (txt "ai") 5)).
  reflexivity.
Defined.

Lemma format_hits_length (fmt : dict pyval -> search_result) (hits : list raw_hit) :
  length (format_hits fmt hits) <= length hits.
Proof.
  induction hits as [| [d |] hits IH]; simpl; lia.
Qed.

Lemma format_hits_In (fmt : dict pyval -> search_result) (hits : list raw_hit)
    (r : search_result) :
  In r (format_hits fmt hits) <-> exists d, In (RDict d) hits /\ r = fmt d.
Proof.
  unfold format_hits. rewrite in_flat_map. split.
  - intros [[d |] [Hh Hr]]; simpl in Hr; [| contradiction].
    destruct Hr as [<- | []]. now exists d.
  - intros [d [Hh ->]]. exists (RDict d). split; [assumption | now left].
Qed.

(** With [max_results] not negative, [_search_web] returns at most
    [max_results] results, and none when [max_results] is 0. *)
Theorem search_web_at_most_max (U : Py.unicode) (e : env) (topic : text)
    (max_results : Z) (web_results : list search_result) :
  (0 <= max_results)%Z ->
  _search_web U e topic max_results = Ok web_results ->
  length web_results <= Z.to_nat max_results.
Proof.
  intros Hn H.
  destruct (search_web_returned U e topic max_results web_results H)
    as [-> | [results [expert_results [_ [_ ->]]]]]; [simpl; lia |].
  unfold cut_then_rank, Py.slice_to.
  apply Z.leb_le in Hn. rewrite Hn. apply firstn_le_length.
Qed.

Lemma search_web_at_most_max_witness :
  length [web_result latin_greek (txt "ai") ai_report;
          web_result latin_greek (txt "ai") gardening] <= 2.
Proof.
  apply (search_web_at_most_max latin_greek
           (sample_env (Ok [RDict gardening; RDict ai_report])
              (Ok [RDict ai_report]) (Ok []))
           (txt "ai") 2).
  - lia.
  - reflexivity.
Defined.

(** With [max_results] not negative and both web queries answered, the
    web results are the scored dictionaries among the first [max_results]
    raw hits of the general query followed by the expert query, in another
    order: the slice taken after the sort removes nothing. *)
Theorem search_web_keeps_first_hits (U : Py.unicode) (e : env) (topic : text)
    (max_results : Z) (results expert_results : list raw_hit) :
  (0 <= max_results)%Z ->
  search e (general_query topic) = Ok results ->
  search e (expert_query topic) = Ok expert_results ->
  exists web_results,
    _search_web U e topic max_results = Ok web_results /\
    Permutation web_results
      (format_hits (web_result U topic)
         (firstn (Z.to_nat max_results) (results ++ expert_results))).
Proof.
  intros Hn Hg Hx.
  rewrite (search_web_both_answer U e topic max_results _ _ Hg Hx).
  eexists. split; [reflexivity |].
  unfold cut_then_rank, Py.slice_to. apply Z.leb_le in Hn. rewrite Hn.
  rewrite firstn_all2.
  - apply sort_desc_perm.
  - rewrite (Permutation_length (sort_desc_perm by_relevance _)).
    etransitivity; [apply format_hits_length |]. apply firstn_le_length.
Qed.

Lemma search_web_keeps_first_hits_witness :
  exists web_results,
    _search_web latin_greek
      (sample_env (Ok [RDict gardening; ROther]) (Ok [RDict ai_report]) (Ok []))
      (txt "ai") 3 = Ok web_results /\
    Permutation web_results
      [web_result latin_greek (txt "ai") gardening;
       web_result latin_greek (txt "ai") ai_report].
Proof.
  apply (search_web_keeps_first_hits latin_greek
           (sample_env (Ok [RDict gardening; ROther]) (Ok [RDict ai_report]) (Ok []))
           (txt "ai") 3 [RDict gardening; ROther] [RDict ai_report]).
  - lia.
  - reflexivity.
  - reflexivity.
Defined.

(** Every web result was built from a dictionary that one of the two web
    queries returned; it is marked [web_search] and has no source or date. *)
Theorem search_web_results_come_from_hits (U : Py.unicode) (e : env)
    (topic : text) (max_results : Z) (web_results : list search_result)
    (r : search_result) :
  _search_web U e topic max_results = Ok web_results ->
  In r web_results ->
  type_ r = web_search /\ source r = None /\ date r = None /\
  exists results expert_results d,
    search e (general_query topic) = Ok results /\
    search e (expert_query topic) = Ok expert_results /\
    In (RDict d) (results ++ expert_results) /\
    r = web_result U topic d.
Proof.
  intros H.
  destruct (search_web_returned U e topic max_results web_results H)
    as [-> | [results [expert_results [Hg [Hx ->]]]]]; [intros [] |].
  unfold cut_then_rank. intros Hr.
  apply In_slice_to in Hr.
  apply (Permutation_in _ (sort_desc_perm by_relevance _)) in Hr.
  apply format_hits_In in Hr. destruct Hr as [d [Hd ->]].
  apply In_slice_to in Hd.
  repeat split. exists results, expert_results, d. repeat split; assumption.
Qed.

Lemma search_web_results_come_from_hits_witness :
  type_ (web_result latin_greek (txt "ai") ai_report) = web_search /\
  exists results expert_results d,
    search (sample_env (Ok [RDict gardening]) (Ok [RDict ai_report]) (Ok []))
      (general_query (txt "ai")) = Ok results /\
    search (sample_env (Ok [RDict gardening]) (Ok [RDict ai_report]) (Ok []))
      (expert_query (txt "ai")) = Ok expert_results /\
    In (RDict d) (results ++ expert_results) /\
    web_result latin_greek (txt "ai") ai_report = web_result latin_greek (txt "ai") d.
Proof.
  destruct (search_web_results_come_from_hits latin_greek
              (sample_env (Ok [RDict gardening]) (Ok [RDict ai_report]) (Ok []))
              (txt "ai") 5
              [web_result latin_greek (txt "ai") ai_report;
               web_result latin_greek (txt "ai") gardening]
              (web_result latin_greek (txt "ai") ai_report))
    as [Ht [_ [_ Hex]]].
  - reflexivity.
  - now left.
  - split; [exact Ht | exact Hex].
Defined.

(** A negative [max_results] neither raises nor empties the web results:
    the first slice drops that many raw hits from the end and the slice
    after the sort drops as many of the least relevant results. *)
Theorem search_web_negative_max (U : Py.unicode) (e : env) (topic : text)
    (max_results : Z) (results expert_results : list raw_hit) :
  (max_results < 0)%Z ->
  search e (general_query topic) = Ok results ->
  search e (expert_query topic) = Ok expert_results ->
  let dropped := Z.to_nat (- max_results) in
  let scored :=
    format_hits (web_result U topic)
      (firstn (length (results ++ expert_results) - dropped)
         (results ++ expert_results)) in
  _search_web U e topic max_results =
    Ok (firstn (length scored - dropped) (Py.sort_desc by_relevance scored)) /\
  length (firstn (length scored - dropped) (Py.sort_desc by_relevance scored)) <=
    length (results ++ expert_results) - 2 * dropped.
Proof.
  intros Hn Hg Hx dropped scored.
  rewrite (search_web_both_answer U e topic max_results _ _ Hg Hx).
  unfold cut_then_rank, Py.slice_to.
  assert (Hneg : (0 <=? max_results)%Z = false) by (apply Z.leb_gt; exact Hn).
  rewrite Hneg. fold dropped. fold scored.
  rewrite (Permutation_length (sort_desc_perm by_relevance scored)).
  split; [reflexivity |].
  rewrite length_firstn, (Permutation_length (sort_desc_perm by_relevance scored)).
  pose proof (format_hits_length (web_result U topic)
                (firstn (length (results ++ expert_results) - dropped)
                   (results ++ expert_results))) as Hlen.
  fold scored in Hlen. rewrite length_firstn in Hlen. lia.
Qed.

Lemma search_web_negative_max_witness :
  _search_web latin_greek
    (sample_env (Ok [RDict gardening; RDict ai_report; RDict gardening])
       (Ok [RDict ai_report]) (Ok []))
    (txt "ai") (-1) =
  Ok [web_result latin_greek (txt "ai") ai_report;
      web_result latin_greek (txt "ai") gardening].
Proof.
  refine (eq_trans
            (proj1 (search_web_negative_max latin_greek
                      (sample_env (Ok [RDict gardening; RDict ai_report; RDict gardening])
                         (Ok [RDict ai_report]) (Ok []))
                      (txt "ai") (-1)
                      [RDict gardening; RDict ai_report; RDict gardening]
                      [RDict ai_report] _ eq_refl eq_refl)) _).
  - lia.
  - reflexivity.
Defined.

Section DictFacts.
Context {V : Type}.

Lemma dict_get_absent (d : dict V) (k : text) (v0 : V) :
  ~ In k (map fst d) -> dict_get d k v0 = v0.
Proof.
  induction d as [| [k' v'] d IH]; simpl; intros H; [reflexivity |].
  destruct (text_eqb_spec k' k) as [-> | Hne].
  - exfalso. apply H. now left.
  - apply IH. intros Hin. apply H. now right.
Qed.

Lemma dict_get_present (d : dict V) (k : text) (v v0 : V) :
  NoDup (map fst d) -> In (k, v) d -> dict_get d k v0 = v.
Proof.
  induction d as [| [k' v'] d IH]; simpl; intros Hnd Hin; [contradiction |].
  inversion Hnd as [| ? ? Hk' Hnd']; subst.
  destruct Hin as [Heq | Hin].
  - injection Heq as -> ->. now rewrite text_eqb_refl.
  - destruct (text_eqb_spec k' k) as [-> | Hne]; [| now apply IH].
    exfalso. apply Hk'. apply (in_map fst) in Hin. exact Hin.
Qed.

Lemma dict_set_keys_present (d : dict V) (k : text) (v : V) :
  In k (map fst d) -> map fst (dict_set d k v) = map fst d.
Proof.
  induction d as [| [k' v'] d IH]; simpl; intros Hin; [contradiction |].
  destruct (text_eqb_spec k' k) as [-> | Hne]; simpl; [reflexivity |].
  rewrite IH; [reflexivity |]. destruct Hin; [contradiction | assumption].
Qed.

Lemma dict_set_keys_absent (d : dict V) (k : text) (v : V) :
  ~ In k (map fst d) -> map fst (dict_set d k v) = map fst d ++ [k].
Proof.
  induction d as [| [k' v'] d IH]; simpl; intros Hin; [reflexivity |].
  destruct (text_eqb_spec k' k) as [-> | Hne]; simpl.
  - exfalso. apply Hin. now left.
  - rewrite IH; [reflexivity |]. intros H. apply Hin. now right.
Qed.

Lemma dict_set_entries (d : dict V) (k k' : text) (v v' : V) :
  NoDup (map fst d) ->
  In (k', v') (dict_set d k v) ->
  (k' = k /\ v' = v) \/ (k' <> k /\ In (k', v') d).
Proof.
  induction d as [| [k0 v0] d IH]; simpl; intros Hnd.
  - intros [Heq | []]. injection Heq as <- <-. now left.
  - inversion Hnd as [| ? ? Hk0 Hnd']; subst.
    destruct (text_eqb_spec k0 k) as [-> | Hne]; simpl.
    + intros [Heq | Hin].
      * injection Heq as <- <-. now left.
      * right. split; [| now right].
        intros ->. apply Hk0. apply (in_map fst) in Hin. exact Hin.
    + intros [Heq | Hin].
      * injection Heq as <- <-. right. split; [assumption | now left].
      * destruct (IH Hnd' Hin) as [? | [? ?]]; [now left | right].
        split; [assumption | now right].
Qed.
End DictFacts.

(** A hit without the key "snippet" gets the empty content and the
    relevance 0.0, as a web result and as a news result. *)
Theorem hit_without_snippet (U : Py.unicode) (topic : text) (d : dict pyval) :
  ~ In (txt "snippet") (map fst d) ->
  content (web_result U topic d) = PStr [] /\
  relevance (web_result U topic d) = 0%Q /\
  content (news_result U topic d) = PStr [] /\
  relevance (news_result U topic d) = 0%Q.
Proof.
  intros H. unfold web_result, news_result. simpl.
  rewrite (dict_get_absent d (txt "snippet") (PStr []) H). repeat split.
Qed.

Lemma hit_without_snippet_witness :
  content (web_result latin_greek (txt "ai") [(txt "title", PStr (txt "Untitled"))])
  = PStr [].
Proof.
  apply (hit_without_snippet latin_greek (txt "ai")
           [(txt "title", PStr (txt "Untitled"))]).
  simpl. intros [H | []]. discriminate H.
Defined.

Lemma search_news_returned (U : Py.unicode) (e : env) (topic : text)
    (news_results : list search_result) :
  _search_news U e topic = Ok news_results ->
  news_results = [] \/
  exists hits,
    news_search e (news_query topic) = Ok hits /\
    news_results = format_hits (news_result U topic) hits.
Proof.
  unfold _search_news, search_news_body.
  destruct (news_search e (news_query topic)) as [hits | msg | name]; simpl;
    intros H; try discriminate H; apply Ok_inj in H; subst.
  - right. now exists hits.
  - now left.
Qed.

(** The news results are one per dictionary the news query returned, in
    the order returned, each marked [news] with a source and a date; they
    are empty when the query raises. *)
Theorem search_news_results (U : Py.unicode) (e : env) (topic : text) :
  (forall news_results,
      _search_news U e topic = Ok news_results ->
      Forall (fun r => type_ r = news /\ source r <> None /\ date r <> None)
        news_results) /\
  (forall msg, news_search e (news_query topic) = Raise msg ->
               _search_news U e topic = Ok []) /\
  (forall ds, news_search e (news_query topic) = Ok (map RDict ds) ->
              _search_news U e topic = Ok (map (news_result U topic) ds)).
Proof.
  split; [| split].
  - intros news_results H.
    destruct (search_news_returned U e topic news_results H)
      as [-> | [hits [_ ->]]]; [constructor |].
    rewrite Forall_forall. intros r Hr.
    apply format_hits_In in Hr. destruct Hr as [d [_ ->]].
    repeat split; discriminate.
  - unfold _search_news, search_news_body. intros msg ->. reflexivity.
  - unfold _search_news, search_news_body. intros ds ->. simpl. f_equal.
    induction ds as [| d ds IH]; simpl; [reflexivity |].
    now rewrite <- IH.
Qed.

Lemma search_news_results_witness :
  _search_news latin_greek
    (sample_env (Ok []) (Ok []) (Ok [RDict ai_report; RDict gardening]))
    (txt "ai") =
  Ok [news_result latin_greek (txt "ai") ai_report;
      news_result latin_greek (txt "ai") gardening].
Proof.
  apply (proj2 (proj2 (search_news_results latin_greek
                         (sample_env (Ok []) (Ok [])
                            (Ok [RDict ai_report; RDict gardening])) (txt "ai")))
           [ai_report; gardening]).
  reflexivity.
Defined.

(* ================================================================= *)
(** ** Key findings *)

Lemma mem_In (x : text) (l : list text) : Py.mem x l = true <-> In x l.
Proof.
  unfold Py.mem. rewrite existsb_exists. split.
  - intros [y [Hy Heq]]. apply text_eqb_eq in Heq. now subst.
  - intros H. exists x. split; [assumption | apply text_eqb_refl].
Qed.

Lemma mem_false (x : text) (l : list text) : Py.mem x l = false -> ~ In x l.
Proof. intros H Hin. apply mem_In in Hin. congruence. Qed.

Lemma NoDup_snoc {A : Type} (l : list A) (x : A) :
  NoDup l -> ~ In x l -> NoDup (l ++ [x]).
Proof.
  intros Hl Hx. apply NoDup_app; [assumption | repeat constructor; intros [] |].
  intros y Hy [<- | []]. contradiction.
Qed.

Lemma NoDup_firstn {A : Type} (n : nat) (l : list A) :
  NoDup l -> NoDup (firstn n l).
Proof.
  intros H. rewrite <- (firstn_skipn n l) in H.
  now apply NoDup_app_remove_r in H.
Qed.

Lemma add_new_NoDup (findings : list text) (c : text) :
  NoDup findings -> NoDup (add_new findings c).
Proof.
  intros H. unfold add_new. destruct (Py.mem c findings) eqn:Hm; [assumption |].
  apply NoDup_snoc; [assumption | now apply mem_false].
Qed.

Section KeyFindings.
Context (U : Py.unicode).

Lemma scan_sentences_NoDup (topic : text) (sentences findings : list text) :
  NoDup findings -> NoDup (scan_sentences U topic sentences findings).
Proof.
  revert findings. induction sentences as [| s rest IH]; intros findings Hf;
    cbn [scan_sentences].
  - assumption.
  - destruct (is_key_sentence U topic s); [| now apply IH].
    destruct (Py.mem (clean s) findings) eqn:Hm; [now apply IH |].
    assert (NoDup (findings ++ [clean s])) as Hnew
      by (apply NoDup_snoc; [assumption | now apply mem_false]).
    destruct (6 <=? length (findings ++ [clean s])); [assumption | now apply IH].
Qed.

Lemma scan_results_NoDup (topic : text) (results : list search_result)
    (findings found : list text) :
  NoDup findings ->
  scan_results U topic results findings = Ok found -> NoDup found.
Proof.
  revert findings. induction results as [| r rest IH]; intros findings Hf; simpl.
  - intros H. injection H as <-. assumption.
  - destruct (content r) as [c |]; [| discriminate].
    apply IH. destruct (50 <? length c); [| assumption].
    now apply scan_sentences_NoDup.
Qed.

Lemma scan_results_total (topic : text) (results : list search_result)
    (findings : list text) :
  Forall has_text results ->
  exists found, scan_results U topic results findings = Ok found.
Proof.
  intros H. revert findings.
  induction H as [| r rest Hr _ IH]; intros findings; simpl.
  - now exists findings.
  - unfold has_text in Hr. destruct (content r) as [c |]; [| congruence].
    apply IH.
Qed.

Lemma scan_results_raises (topic : text) (results : list search_result)
    (findings : list text) (msg : text) :
  scan_results U topic results findings = Raise msg <->
  msg = no_len /\ Exists (fun r => content r = PNone) results.
Proof.
  revert findings. induction results as [| r rest IH]; intros findings; simpl.
  - split; [discriminate | intros [_ H]; inversion H].
  - destruct (content r) as [c |] eqn:Hc.
    + rewrite IH. split; intros [Hm Hex]; (split; [assumption |]).
      * now apply Exists_cons_tl.
      * inversion Hex as [? ? Hr | ? ? Hrest]; subst; [congruence | assumption].
    + split.
      * intros H. injection H as <-. split; [reflexivity | now apply Exists_cons_hd].
      * intros [-> _]. reflexivity.
Qed.

Lemma scan_results_no_abort (topic : text) (results : list search_result)
    (findings : list text) (name : text) :
  scan_results U topic results findings <> Abort name.
Proof.
  revert findings. induction results as [| r rest IH]; intros findings; simpl.
  - discriminate.
  - destruct (content r) as [c |]; [apply IH | discriminate].
Qed.

Lemma extract_key_findings_raise (results : list search_result) (topic msg : text) :
  _extract_key_findings U results topic = Raise msg <->
  msg = no_len /\ Exists (fun r => content r = PNone) (firstn 8 results).
Proof.
  unfold _extract_key_findings.
  rewrite <- (scan_results_raises topic (firstn 8 results) [] msg).
  destruct (scan_results U topic (firstn 8 results) []); unfold bind;
    split; intros H; try discriminate H; exact H.
Qed.

Lemma extract_key_findings_ok (results : list search_result) (topic : text) :
  Forall has_text (firstn 8 results) ->
  exists findings, _extract_key_findings U results topic = Ok findings.
Proof.
  intros H. unfold _extract_key_findings.
  destruct (scan_results_total topic (firstn 8 results) [] H) as [found ->].
  cbn [bind]. now eexists.
Qed.

Lemma extract_key_findings_no_abort (results : list search_result)
    (topic name : text) :
  _extract_key_findings U results topic <> Abort name.
Proof.
  unfold _extract_key_findings.
  pose proof (scan_results_no_abort topic (firstn 8 results) [] name) as H.
  destruct (scan_results U topic (firstn 8 results) []); unfold bind;
    congruence.
Qed.

(** C7: the key findings returned are at most six and pairwise different;
    they are returned whenever the first eight results carry text. *)
Theorem key_findings_bounded_and_distinct (results : list search_result)
    (topic : text) :
  (forall findings,
      _extract_key_findings U results topic = Ok findings ->
      length findings <= 6 /\ NoDup findings) /\
  (Forall has_text (firstn 8 results) ->
   exists findings, _extract_key_findings U results topic = Ok findings).
Proof.
  unfold _extract_key_findings. split.
  - intros findings H.
    destruct (scan_results U topic (firstn 8 results) []) as [found | |] eqn:Hscan;
      cbn [bind] in H; try discriminate.
    apply Ok_inj in H. subst findings. split; [apply firstn_le_length |].
    apply NoDup_firstn.
    apply (scan_results_NoDup topic (firstn 8 results) [] found);
      [constructor | assumption].
  - intros Htext.
    destruct (scan_results_total topic (firstn 8 results) [] Htext) as [found ->].
    simpl. now eexists.
Qed.









(** [_extract_key_findings] raises exactly when one of the first eight
    results has [None] as content, and then with the [TypeError] message
    of [len(None)]; a [None] further down the list is not looked at. *)
Theorem key_findings_raise_iff (results : list search_result) (topic msg : text) :
  _extract_key_findings U results topic = Raise msg <->
  msg = txt "object of type 'NoneType' has no len()" /\
  Exists (fun r => content r = PNone) (firstn 8 results).
Proof. apply extract_key_findings_raise. Qed.

Lemma scan_sentences_In (topic : text) (sentences findings : list text)
    (f : text) :
  In f (scan_sentences U topic sentences findings) ->
  In f findings \/
  exists s, In s sentences /\ is_key_sentence U topic s = true /\ f = clean s.
Proof.
  revert findings. induction sentences as [| s rest IH]; intros findings;
    cbn [scan_sentences].
  - now left.
  - assert (Hrest : forall fs, In f (scan_sentences U topic rest fs) ->
              In f fs \/
              exists s0, In s0 (s :: rest) /\ is_key_sentence U topic s0 = true /\
                         f = clean s0).
    { intros fs H. destruct (IH fs H) as [? | [s0 [? ?]]]; [now left | right].
      exists s0. split; [now right | assumption]. }
    destruct (is_key_sentence U topic s) eqn:Hkey; [| apply Hrest].
    destruct (Py.mem (clean s) findings); [apply Hrest |].
    assert (Hadd : In f (findings ++ [clean s]) ->
              In f findings \/
              exists s0, In s0 (s :: rest) /\ is_key_sentence U topic s0 = true /\
                         f = clean s0).
    { intros H. apply in_app_or in H. destruct H as [H | [<- | []]];
        [now left | right].
      exists s. repeat split; [now left | assumption]. }
    destruct (6 <=? length (findings ++ [clean s])); [exact Hadd |].
    intros H. destruct (Hrest _ H) as [H' | H']; [now apply Hadd | now right].
Qed.

Lemma scan_results_In (topic : text) (results : list search_result)
    (findings found : list text) (f : text) :
  scan_results U topic results findings = Ok found ->
  In f found ->
  In f findings \/
  exists r c s,
    In r results /\ content r = PStr c /\ 50 < length c /\
    In s (Py.split_on (txt ". ") c) /\ is_key_sentence U topic s = true /\
    f = clean s.
Proof.
  revert findings. induction results as [| r rest IH]; intros findings; simpl.
  - intros H Hf. apply Ok_inj in H. subst. now left.
  - destruct (content r) as [c |] eqn:Hc; [| discriminate].
    intros H Hf. destruct (IH _ H Hf) as [Hin | [r0 [c0 [s0 [Hr0 Hrest]]]]].
    + destruct (50 <? length c) eqn:Hlen; [| now left].
      apply Nat.ltb_lt in Hlen.
      destruct (scan_sentences_In _ _ _ _ Hin) as [? | [s [Hs [Hkey ->]]]];
        [now left | right].
      exists r, c, s. repeat split; try assumption. now left.
    + right. exists r0, c0, s0. split; [now right | assumption].
Qed.

Lemma key_findings_origin (results : list search_result)
    (topic : text) (findings : list text) (f : text) :
  _extract_key_findings U results topic = Ok findings ->
  In f findings ->
  exists r c s,
    In r (firstn 8 results) /\ content r = PStr c /\ 50 < length c /\
    In s (Py.split_on (txt ". ") c) /\ is_key_sentence U topic s = true /\
    f = clean s.
Proof.
  unfold _extract_key_findings. intros H Hf.
  destruct (scan_results U topic (firstn 8 results) []) as [found | |] eqn:Hscan;
    cbn [bind] in H; try discriminate.
  apply Ok_inj in H. subst findings.
  assert (Hfound : In f found).
  { rewrite <- (firstn_skipn 6 found). apply in_or_app. now left. }
  destruct (scan_results_In _ _ _ _ _ Hscan Hfound) as [[] | H]. exact H.
Qed.

(** Every key finding is the cleaned form of a key sentence of one of the
    first eight results, and the content of that result is longer than 50
    characters. *)
Theorem key_findings_come_from_key_sentences (results : list search_result)
    (topic : text) (findings : list text) (f : text) :
  _extract_key_findings U results topic = Ok findings ->
  In f findings ->
  exists r c s,
    In r (firstn 8 results) /\ content r = PStr c /\ 50 < length c /\
    In s (Py.split_on (txt ". ") c) /\ is_key_sentence U topic s = true /\
    f = clean s.
Proof. apply key_findings_origin. Qed.

End KeyFindings.

Lemma lstrip_by_no_lead (p : N -> bool) (s : text) :
  no_lead p (Py.lstrip_by p s).
Proof.
  induction s as [| c s IH]; simpl; [exact I |].
  destruct (p c) eqn:Hc; [exact IH | exact Hc].
Qed.

Lemma rstrip_by_no_lead (p q : N -> bool) (s : text) :
  no_lead p s -> no_lead p (Py.rstrip_by q s).
Proof.
  destruct s as [| c s]; simpl; [trivial |]. intros Hc.
  destruct (Py.rstrip_by q s); [destruct (q c) |]; simpl; trivial.
Qed.

Lemma no_lead_lstrip (p : N -> bool) (s : text) :
  no_lead p s -> Py.lstrip_by p s = s.
Proof. destruct s as [| c s]; simpl; [reflexivity | now intros ->]. Qed.

Lemma rstrip_by_cons (p : N -> bool) (c : N) (s : text) :
  Py.rstrip_by p (c :: s) =
  match Py.rstrip_by p s with
  | [] => if p c then [] else [c]
  | r => c :: r
  end.
Proof. reflexivity. Qed.

Lemma rstrip_by_idem (p : N -> bool) (s : text) :
  Py.rstrip_by p (Py.rstrip_by p s) = Py.rstrip_by p s.
Proof.
  induction s as [| c s IH]; [reflexivity |].
  rewrite rstrip_by_cons.
  destruct (Py.rstrip_by p s) as [| d r] eqn:Hr.
  - destruct (p c) eqn:Hc; [reflexivity |].
    rewrite rstrip_by_cons. simpl. now rewrite Hc.
  - rewrite rstrip_by_cons, IH. reflexivity.
Qed.

Lemma clean_shape (s : text) :
  Py.lstrip_by Py.isspace (clean s) = clean s /\
  Py.rstrip_chars (txt ".") (clean s) = clean s.
Proof.
  unfold clean, Py.rstrip_chars, Py.strip, Py.strip_by. split.
  - apply no_lead_lstrip. do 2 apply rstrip_by_no_lead. apply lstrip_by_no_lead.
  - apply rstrip_by_idem.
Qed.

(** No key finding starts with white space or ends with a period:
    stripping either again changes nothing. *)
Theorem key_findings_are_stripped (U : Py.unicode) (results : list search_result)
    (topic : text) (findings : list text) :
  _extract_key_findings U results topic = Ok findings ->
  Forall (fun f => Py.lstrip_by Py.isspace f = f /\
                   Py.rstrip_chars (txt ".") f = f) findings.
Proof.
  intros H. rewrite Forall_forall. intros f Hf.
  destruct (key_findings_origin U _ _ _ _ H Hf)
    as [_ [_ [s [_ [_ [_ [_ [_ ->]]]]]]]].
  apply clean_shape.
Qed.

Lemma key_findings_bounded_and_distinct_witness :
  _extract_key_findings latin_greek [growth_twice] (txt "ai") =
    Ok [txt "Market growth is strong this year"; txt "The adoption of AI keeps rising"] /\
  length [txt "Market growth is strong this year"; txt "The adoption of AI keeps rising"] <= 6 /\
  NoDup [txt "Market growth is strong this year"; txt "The adoption of AI keeps rising"].
Proof.
  split; [reflexivity |].
  apply (proj1 (key_findings_bounded_and_distinct latin_greek [growth_twice] (txt "ai"))).
  reflexivity.
Defined.



Lemma key_findings_raise_iff_witness :
  _extract_key_findings latin_greek
    [short_trend; web_result latin_greek (txt "ai") no_snippet] (txt "ai") =
  Raise (txt "object of type 'NoneType' has no len()").
Proof.
  apply (proj2 (key_findings_raise_iff latin_greek
                  [short_trend; web_result latin_greek (txt "ai") no_snippet]
                  (txt "ai") (txt "object of type 'NoneType' has no len()"))).
  split; [reflexivity |]. apply Exists_cons_tl, Exists_cons_hd.
  reflexivity.
Defined.

Lemma key_findings_come_from_key_sentences_witness :
  exists r c s,
    In r (firstn 8 [growth_and_adoption]) /\ content r = PStr c /\
    50 < length c /\ In s (Py.split_on (txt ". ") c) /\
    is_key_sentence latin_greek (txt "ai") s = true /\
    txt "The adoption of AI keeps rising" = clean s.
Proof.
  apply (key_findings_come_from_key_sentences latin_greek [growth_and_adoption]
           (txt "ai")
           [txt "Market growth is strong this year";
            txt "The adoption of AI keeps rising"]).
  - reflexivity.
  - right. now left.
Defined.

Lemma key_findings_are_stripped_witness :
  Forall (fun f => Py.lstrip_by Py.isspace f = f /\
                   Py.rstrip_chars (txt ".") f = f)
    [txt "Market growth is strong this year"; txt "The adoption of AI keeps rising"].
Proof.
  apply (key_findings_are_stripped latin_greek [growth_and_adoption] (txt "ai")).
  reflexivity.
Defined.

(** The length that counts is the number of characters: a content of 50
    characters, one of them outside ASCII, is not longer than 50 and gives
    no finding. *)
Example fifty_characters_give_no_finding :
  let c := txt "Le marché: the market trend is clearly up for now." in
  length c = 50 /\
  is_key_sentence latin_greek (txt "x") c = true /\
  _extract_key_findings latin_greek
    [web_result latin_greek (txt "x") [(txt "snippet", PStr c)]] (txt "x")
  = Ok [].
Proof. repeat split. Qed.

(* ================================================================= *)
(** ** Sorting *)

Section StronglySortedFacts.
Context {A : Type}.

Lemma StronglySorted_weaken (R R' : A -> A -> Prop) (l : list A) :
  (forall a b, In a l -> In b l -> R a b -> R' a b) ->
  StronglySorted R l -> StronglySorted R' l.
Proof.
  intros Himp Hs. induction Hs as [| a l Hs IH Hall]; constructor.
  - apply IH. intros x y Hx Hy. apply Himp; now right.
  - rewrite Forall_forall in *. intros b Hb.
    apply Himp; [now left | now right | now apply Hall].
Qed.

Lemma StronglySorted_snoc (R : A -> A -> Prop) (l : list A) (x : A) :
  StronglySorted R l -> Forall (fun a => R a x) l ->
  StronglySorted R (l ++ [x]).
Proof.
  intros Hs. induction Hs as [| a l Hs IH Hall]; intros Hx; simpl.
  - repeat constructor.
  - inversion Hx as [| ? ? Hax Hlx]; subst. constructor; [now apply IH |].
    apply Forall_app. split; [assumption | now constructor].
Qed.

Lemma StronglySorted_map {B : Type} (f : A -> B) (R : B -> B -> Prop)
    (l : list A) :
  StronglySorted (fun a b => R (f a) (f b)) l <-> StronglySorted R (map f l).
Proof.
  induction l as [| a l IH]; simpl.
  - split; constructor.
  - split; intros H; apply StronglySorted_inv in H; destruct H as [Hs Hall];
      constructor; try (now apply IH).
    + exact (proj2 (Forall_map f (R (f a)) l) Hall).
    + exact (proj1 (Forall_map f (R (f a)) l) Hall).
Qed.
End StronglySortedFacts.

(** A stable descending sort: more of the key first, and for equal keys
    the order the elements had before the sort. *)
Section SortDescFacts.
Context {A : Type} (key : A -> nat).

Let lt (a b : A) : bool := key a <? key b.

Lemma insert_desc_In (x y : A) (l : list A) :
  In y (Py.insert_desc lt x l) <-> y = x \/ In y l.
Proof.
  induction l as [| z l IH]; simpl.
  - intuition auto.
  - destruct (lt x z); simpl; rewrite ?IH; intuition auto.
Qed.

Lemma sort_desc_In (y : A) (l : list A) :
  In y (Py.sort_desc lt l) <-> In y l.
Proof.
  induction l as [| x l IH]; simpl; [reflexivity |].
  rewrite insert_desc_In, IH. intuition auto.
Qed.

Context (before : A -> A -> Prop).

Let ordered : A -> A -> Prop := ordered_desc key before.

Lemma insert_desc_sorted (x : A) (l : list A) :
  StronglySorted ordered l -> Forall (before x) l ->
  StronglySorted ordered (Py.insert_desc lt x l).
Proof.
  intros Hs. induction Hs as [| z l Hs IH Hall]; intros Hx; simpl.
  - repeat constructor.
  - inversion Hx as [| ? ? Hxz Hxl]; subst.
    unfold lt at 1. destruct (key x <? key z) eqn:Hlt.
    + apply Nat.ltb_lt in Hlt. constructor; [now apply IH |].
      rewrite Forall_forall in *. intros y Hy.
      apply insert_desc_In in Hy. destruct Hy as [-> | Hy].
      * now left.
      * now apply Hall.
    + apply Nat.ltb_ge in Hlt. constructor; [now constructor |].
      assert (Hz : ordered x z).
      { unfold ordered, ordered_desc.
        destruct (Nat.eq_dec (key x) (key z)); [right | left];
          [split; assumption | lia]. }
      constructor; [assumption |].
      rewrite Forall_forall in *. intros y Hy.
      specialize (Hall y Hy). specialize (Hxl y Hy).
      unfold ordered, ordered_desc in *.
      destruct (Nat.eq_dec (key x) (key y)); [right | left];
        [split; assumption | lia].
Qed.

Lemma sort_desc_sorted (l : list A) :
  StronglySorted before l -> StronglySorted ordered (Py.sort_desc lt l).
Proof.
  intros Hs. induction Hs as [| x l Hs IH Hall]; simpl; [constructor |].
  apply insert_desc_sorted; [assumption |].
  rewrite Forall_forall in *. intros y Hy. apply Hall.
  exact (proj1 (sort_desc_In y l) Hy).
Qed.
End SortDescFacts.

(* ================================================================= *)
(** ** Trending keywords *)

Lemma first_index_app_in (w : text) (ws l : list text) :
  In w ws -> first_index w (ws ++ l) = first_index w ws.
Proof.
  induction ws as [| x ws IH]; simpl; intros Hin; [contradiction |].
  destruct (text_eqb_spec x w) as [-> | Hne]; [reflexivity |].
  f_equal. apply IH. destruct Hin; [contradiction | assumption].
Qed.

Lemma first_index_app_notin (w : text) (ws l : list text) :
  ~ In w ws -> first_index w (ws ++ l) = length ws + first_index w l.
Proof.
  induction ws as [| x ws IH]; simpl; intros Hin; [reflexivity |].
  destruct (text_eqb_spec x w) as [-> | Hne].
  - exfalso. apply Hin. now left.
  - f_equal. apply IH. intros H. apply Hin. now right.
Qed.

Lemma first_index_in_lt (w : text) (ws : list text) :
  In w ws -> first_index w ws < length ws.
Proof.
  induction ws as [| x ws IH]; simpl; intros Hin; [contradiction |].
  destruct (text_eqb_spec x w) as [-> | Hne]; [lia |].
  destruct Hin; [contradiction |]. apply IH in H. lia.
Qed.

Lemma first_index_self (w : text) : first_index w [w] = 0.
Proof. simpl. now rewrite text_eqb_refl. Qed.

Lemma frequency_snoc_same (ws : list text) (w : text) :
  frequency (ws ++ [w]) w = frequency ws w + 1.
Proof.
  unfold frequency. rewrite count_occ_app. simpl.
  destruct (text_eq_dec w w); [reflexivity | contradiction].
Qed.

Lemma frequency_snoc_other (ws : list text) (t w : text) :
  t <> w -> frequency (ws ++ [t]) w = frequency ws w.
Proof.
  intros Hne. unfold frequency. rewrite count_occ_app. simpl.
  destruct (text_eq_dec t w); [contradiction | lia].
Qed.

Lemma key_of_entry (d : dict nat) (w : text) :
  In w (map fst d) -> exists c, In (w, c) d.
Proof.
  intros H. apply in_map_iff in H. destruct H as [[w' c] [Heq Hin]].
  simpl in Heq. subst. now exists c.
Qed.

Section Tally.
Context (U : Py.unicode).

Lemma keyword_counts_of_words (results : list search_result) (d : dict nat) :
  fold_left (count_result U) results d =
  fold_left (count_word U) (flat_map (result_words U) results) d.
Proof.
  revert d. induction results as [| r rs IH]; intros d; simpl; [reflexivity |].
  rewrite fold_left_app. apply IH.
Qed.

Lemma tally_of_nil : tally_of U [] [].
Proof.
  split; simpl; try constructor; intros; contradiction.
Qed.

Lemma tally_of_step (ws : list text) (d : dict nat) (t : text) :
  tally_of U ws d -> tally_of U (ws ++ [t]) (count_word U d t).
Proof.
  intros [Hnd Hent Hcomp Hord]. unfold count_word.
  assert (Hkeys_in : forall k, In k (map fst d) -> In k ws).
  { intros k Hk. destruct (key_of_entry d k Hk) as [c Hc].
    now destruct (Hent k c Hc) as [_ [? _]]. }
  assert (Hord' : StronglySorted
            (fun a b => first_index a (ws ++ [t]) < first_index b (ws ++ [t]))
            (map fst d)).
  { apply (StronglySorted_weaken
             (fun a b => first_index a ws < first_index b ws)); [| exact Hord].
    intros a b Ha Hb H.
    rewrite !first_index_app_in by now apply Hkeys_in. exact H. }
  destruct (is_keyword U t) eqn:Hkw.
  - destruct (in_dec text_eq_dec t (map fst d)) as [Hin | Hnin].
    + (* a keyword seen before: its count grows by one *)
      split.
      * now rewrite dict_set_keys_present.
      * intros w c Hwc. apply dict_set_entries in Hwc; [| assumption].
        destruct Hwc as [[-> ->] | [Hne Hwc]].
        -- split; [assumption |]. split; [apply in_or_app; right; now left |].
           destruct (key_of_entry d t Hin) as [c0 Hc0].
           rewrite (dict_get_present d t c0 0 Hnd Hc0).
           destruct (Hent t c0 Hc0) as [_ [_ ->]].
           now rewrite frequency_snoc_same.
        -- destruct (Hent w c Hwc) as [Hk [Hw ->]].
           split; [assumption |]. split; [apply in_or_app; now left |].
           rewrite frequency_snoc_other; [reflexivity | congruence].
      * intros w Hw Hk. rewrite dict_set_keys_present by assumption.
        apply in_app_or in Hw. destruct Hw as [Hw | [<- | []]];
          [now apply Hcomp | assumption].
      * now rewrite dict_set_keys_present.
    + (* a new keyword: it goes last, with count one *)
      assert (Hnew : ~ In t ws).
      { intros Hw. apply Hnin. now apply Hcomp. }
      split.
      * rewrite dict_set_keys_absent by assumption. now apply NoDup_snoc.
      * intros w c Hwc. apply dict_set_entries in Hwc; [| assumption].
        destruct Hwc as [[-> ->] | [Hne Hwc]].
        -- split; [assumption |]. split; [apply in_or_app; right; now left |].
           rewrite dict_get_absent by assumption.
           rewrite frequency_snoc_same. unfold frequency.
           now rewrite (proj1 (count_occ_not_In text_eq_dec ws t) Hnew).
        -- destruct (Hent w c Hwc) as [Hk [Hw ->]].
           split; [assumption |]. split; [apply in_or_app; now left |].
           rewrite frequency_snoc_other; [reflexivity | congruence].
      * intros w Hw Hk. rewrite dict_set_keys_absent by assumption.
        apply in_or_app. apply in_app_or in Hw.
        destruct Hw as [Hw | [<- | []]]; [left; now apply Hcomp | right; now left].
      * rewrite dict_set_keys_absent by assumption.
        apply StronglySorted_snoc; [assumption |].
        rewrite Forall_forall. intros k Hk.
        rewrite (first_index_app_in k ws [t] (Hkeys_in k Hk)).
        rewrite (first_index_app_notin t ws [t] Hnew), first_index_self.
        pose proof (first_index_in_lt k ws (Hkeys_in k Hk)). lia.
  - (* not a keyword: the tally is left as it is *)
    split.
    + assumption.
    + intros w c Hwc. destruct (Hent w c Hwc) as [Hk [Hw ->]].
      split; [assumption |]. split; [apply in_or_app; now left |].
      rewrite frequency_snoc_other; [reflexivity | congruence].
    + intros w Hw Hk. apply in_app_or in Hw.
      destruct Hw as [Hw | [<- | []]]; [now apply Hcomp | congruence].
    + assumption.
Qed.

Lemma tally_of_words (ws : list text) :
  tally_of U ws (fold_left (count_word U) ws []).
Proof.
  induction ws as [| t ws IH] using rev_ind; simpl.
  - apply tally_of_nil.
  - rewrite fold_left_app. simpl. now apply tally_of_step.
Qed.

Lemma tally_of_results (results : list search_result) :
  tally_of U (all_words U results) (keyword_counts U results).
Proof.
  unfold keyword_counts. rewrite keyword_counts_of_words. apply tally_of_words.
Qed.

Lemma is_keyword_spec (w : text) :
  is_keyword U w = true ->
  4 < length w /\ Py.isalpha U w = true /\ ~ In w stopwords.
Proof.
  unfold is_keyword. rewrite !andb_true_iff, negb_true_iff.
  intros [[Hlen Halpha] Hstop]. apply Nat.ltb_lt in Hlen.
  repeat split; [assumption | assumption | now apply mem_false].
Qed.

(** C8: the trending keywords are at most ten; each is ranked before all
    those after it (it is more frequent among the words of the results, or
    as frequent and first met earlier); each is longer than four
    characters, made of letters only and not a stop word. *)
Theorem trending_keywords_ranked (results : list search_result) :
  let keywords := _extract_trending_keywords U results in
  length keywords <= 10 /\
  StronglySorted (ranks_before (all_words U results)) keywords /\
  Forall (fun w => 4 < length w /\ Py.isalpha U w = true /\
                   ~ In w stopwords) keywords.
Proof.
  pose proof (tally_of_results results) as [Hnd Hent Hcomp Hord].
  set (ws := all_words U results) in *.
  set (d := keyword_counts U results) in *.
  set (before := fun a b : text * nat =>
                   first_index (fst a) ws < first_index (fst b) ws).
  assert (Hin : forall x, In x (firstn 10 (Py.sort_desc by_count d)) -> In x d).
  { intros x Hx. apply (sort_desc_In snd x d).
    change (In x (Py.sort_desc by_count d)).
    rewrite <- (firstn_skipn 10 (Py.sort_desc by_count d)).
    apply in_or_app. now left. }
  unfold _extract_trending_keywords. fold d. cbv zeta.
  split; [| split].
  - rewrite length_map. apply firstn_le_length.
  - apply (proj1 (StronglySorted_map fst (ranks_before ws) _)).
    apply (StronglySorted_weaken (ordered_desc snd before)).
    + intros [a ca] [b cb] Ha Hb Hab.
      destruct (Hent a ca (Hin _ Ha)) as [_ [_ ->]].
      destruct (Hent b cb (Hin _ Hb)) as [_ [_ ->]].
      exact Hab.
    + apply StronglySorted_firstn.
      apply (sort_desc_sorted snd before).
      apply (proj2 (StronglySorted_map fst
                      (fun a b => first_index a ws < first_index b ws) d)).
      exact Hord.
  - rewrite Forall_forall. intros w Hw.
    apply in_map_iff in Hw. destruct Hw as [[w' c] [Heq Hx]].
    simpl in Heq. subst w'. apply is_keyword_spec.
    now destruct (Hent w c (Hin _ Hx)) as [Hk _].
Qed.

Lemma sorted_counts_keys (d : dict nat) :
  Permutation (map fst (Py.sort_desc by_count d)) (map fst d).
Proof. apply Permutation_map. apply sort_desc_perm. Qed.

(** No trending keyword is listed twice. *)
Theorem trending_keywords_distinct (results : list search_result) :
  NoDup (_extract_trending_keywords U results).
Proof.
  unfold _extract_trending_keywords. rewrite <- firstn_map.
  apply NoDup_firstn.
  apply (Permutation_NoDup (Permutation_sym (sorted_counts_keys _))).
  apply (tally_nodup _ _ _ (tally_of_results results)).
Qed.

(** Every trending keyword is a word of the results that passes the
    keyword test; when fewer than ten keywords are returned, every such
    word is among them. *)
Theorem trending_keywords_are_the_accepted_words (results : list search_result) :
  (forall w, In w (_extract_trending_keywords U results) ->
             In w (all_words U results) /\ is_keyword U w = true) /\
  (length (_extract_trending_keywords U results) < 10 ->
   forall w, In w (all_words U results) -> is_keyword U w = true ->
             In w (_extract_trending_keywords U results)).
Proof.
  pose proof (tally_of_results results) as [Hnd Hent Hcomp _].
  unfold _extract_trending_keywords. rewrite <- firstn_map. split.
  - intros w Hw.
    assert (Hkey : In w (map fst (keyword_counts U results))).
    { apply (Permutation_in _ (sorted_counts_keys _)).
      rewrite <- (firstn_skipn 10 (map fst _)). apply in_or_app. now left. }
    destruct (key_of_entry _ _ Hkey) as [c Hc].
    destruct (Hent w c Hc) as [Hk [Hin _]]. now split.
  - intros Hlen w Hw Hk.
    rewrite length_firstn in Hlen. rewrite firstn_all2 by lia.
    apply (Permutation_in _ (Permutation_sym (sorted_counts_keys _))).
    now apply Hcomp.
Qed.

End Tally.

(** The ranking on a small input: "growth" is met three times, "market"
    and "strong" twice each with "market" met first, "markets" once. *)
Example trending_keywords_sample :
  _extract_trending_keywords latin_greek
    [web_result latin_greek (txt "ai")
       [(txt "title", PStr (txt "Growth markets"));
        (txt "snippet",
         PStr (txt "Market growth is strong. A strong market, with growth!"))]]
  = [txt "growth"; txt "market"; txt "strong"; txt "markets"].
Proof. vm_compute. reflexivity. Qed.

(** Letters outside ASCII count as letters: "señales" is a keyword. *)
Example trending_keywords_beyond_ascii :
  _extract_trending_keywords latin_greek
    [web_result latin_greek (txt "x")
       [(txt "title", PStr (txt "Señales"));
        (txt "snippet", PStr (txt "señales del mercado"))]]
  = [txt "señales"; txt "mercado"].
Proof. vm_compute. reflexivity. Qed.

Lemma trending_keywords_are_the_accepted_words_witness :
  In (txt "growth") (_extract_trending_keywords latin_greek [growth_and_adoption]).
Proof.
  apply (proj2 (trending_keywords_are_the_accepted_words latin_greek
                  [growth_and_adoption])).
  - apply Nat.ltb_lt. vm_compute. reflexivity.
  - vm_compute. auto 10.
  - reflexivity.
Defined.

(* ================================================================= *)
(** ** Lower case *)

Section LowerCase.
Context (U : Py.unicode).




Lemma stable_lower_from (before w : text) :
  Forall (stable U) w -> Py.lower_from U before w = w.
Proof.
  intros H. revert before. induction H as [| c w [Hc Hs] _ IH]; intros before;
    simpl; [reflexivity |].
  unfold Py.lower_at. apply N.eqb_neq in Hs. rewrite Hs, Hc, IH. reflexivity.
Qed.

Lemma stable_lower (w : text) : Forall (stable U) w -> Py.lower U w = w.
Proof. apply stable_lower_from. Qed.

Lemma ascii_stable (c : N) :
  (c < 128)%N -> Py.ascii_upper c = false -> stable U c.
Proof.
  intros Hc Hup. split.
  - rewrite (Py.tolower_ascii U c Hc). unfold Py.ascii_lower. now rewrite Hup.
  - unfold Py.capital_sigma. lia.
Qed.

Lemma cased_first_blank (p x : text) :
  Py.cased_first U (p ++ Py.blank :: x) = Py.cased_first U p.
Proof.
  induction p as [| c p IH]; simpl.
  - now rewrite (Py.blank_not_ignorable U), (Py.blank_not_cased U).
  - now rewrite IH.
Qed.

Lemma lower_from_before_blank (p x s : text) :
  Py.lower_from U (p ++ Py.blank :: x) s = Py.lower_from U p s.
Proof.
  revert p. induction s as [| c s IH]; intros p; simpl; [reflexivity |].
  unfold Py.lower_at. rewrite cased_first_blank.
  f_equal. exact (IH (c :: p)).
Qed.

Lemma lower_from_app_blank (before a b : text) :
  Py.lower_from U before (a ++ Py.blank :: b) =
  Py.lower_from U before a ++ Py.blank :: Py.lower_from U [] b.
Proof.
  revert before. induction a as [| c a IH]; intros before; simpl.
  - unfold Py.lower_at. change (Py.blank =? Py.capital_sigma)%N with false.
    rewrite (Py.tolower_ascii U Py.blank eq_refl).
    change (Py.ascii_lower Py.blank) with Py.blank. simpl. f_equal.
    exact (lower_from_before_blank [] before b).
  - unfold Py.lower_at. rewrite cased_first_blank, IH.
    now rewrite app_assoc.
Qed.

(** [lower] works on each side of a blank on its own. *)
Lemma lower_app_blank (a b : text) :
  Py.lower U (a ++ Py.blank :: b) = Py.lower U a ++ Py.blank :: Py.lower U b.
Proof. apply lower_from_app_blank. Qed.

Lemma lower_join_blank (cs : list text) :
  Py.lower U (Py.join [Py.blank] cs) = Py.join [Py.blank] (map (Py.lower U) cs).
Proof.
  induction cs as [| c cs IH]; [reflexivity |].
  destruct cs as [| c' cs]; [reflexivity |].
  change (Py.join [Py.blank] (c :: c' :: cs))
    with (c ++ Py.blank :: Py.join [Py.blank] (c' :: cs)).
  rewrite lower_app_blank, IH. reflexivity.
Qed.





End LowerCase.

(* ================================================================= *)
(** ** Summary *)

Lemma contents_from_text (i : nat) (results : list search_result) :
  Forall has_text results ->
  exists cs, contents_from i results = Ok cs /\ map PStr cs = map content results.
Proof.
  intros H. revert i. induction H as [| r rest Hr _ IH]; intros i; simpl.
  - now exists [].
  - unfold has_text in Hr. destruct (content r) as [c |]; [| congruence].
    destruct (IH (S i)) as [cs [-> Hcs]]. exists (c :: cs). simpl.
    now rewrite Hcs.
Qed.

Lemma contents_from_none (i : nat) (before after : list search_result)
    (r : search_result) :
  Forall has_text before -> content r = PNone ->
  contents_from i (before ++ r :: after) = Raise (not_str (i + length before)).
Proof.
  intros H Hr. revert i. induction H as [| r0 rest Hr0 _ IH]; intros i; simpl.
  - rewrite Hr. now rewrite Nat.add_0_r.
  - unfold has_text in Hr0. destruct (content r0) as [c |]; [| congruence].
    rewrite IH. simpl. now rewrite Nat.add_succ_r.
Qed.

Lemma contents_from_ok (i : nat) (results : list search_result) (cs : list text) :
  contents_from i results = Ok cs -> map PStr cs = map content results.
Proof.
  revert i cs. induction results as [| r rest IH]; intros i cs; simpl.
  - intros H. apply Ok_inj in H. now subst.
  - destruct (content r) as [c |]; [| discriminate].
    destruct (contents_from (S i) rest) as [cs' | |] eqn:Hrest; simpl;
      try discriminate.
    intros H. apply Ok_inj in H. subst cs. simpl. f_equal. now apply (IH (S i)).
Qed.

Lemma contents_from_no_abort (i : nat) (results : list search_result)
    (name : text) :
  contents_from i results <> Abort name.
Proof.
  revert i. induction results as [| r rest IH]; intros i; simpl.
  - discriminate.
  - destruct (content r) as [c |]; [| discriminate].
    specialize (IH (S i)).
    destruct (contents_from (S i) rest); simpl; congruence.
Qed.

Lemma generate_summary_ok (U : Py.unicode)
    (web_results news_results : list search_result) (topic : text) :
  Forall has_text (web_results ++ news_results) ->
  exists s, _generate_summary U web_results news_results topic = Ok s.
Proof.
  unfold _generate_summary. intros H.
  destruct (contents_from_text 0 _ H) as [cs [-> _]]. cbn [bind]. now eexists.
Qed.

Lemma generate_summary_none (U : Py.unicode)
    (web_results news_results : list search_result)
    (topic : text) (before : list search_result) (r : search_result)
    (after : list search_result) :
  web_results ++ news_results = before ++ r :: after ->
  Forall has_text before -> content r = PNone ->
  _generate_summary U web_results news_results topic =
  Raise (not_str (length before)).
Proof.
  unfold _generate_summary. intros Heq Hb Hr. rewrite Heq.
  rewrite (contents_from_none 0 before after r Hb Hr). reflexivity.
Qed.

Lemma generate_summary_no_abort (U : Py.unicode)
    (web_results news_results : list search_result) (topic name : text) :
  _generate_summary U web_results news_results topic <> Abort name.
Proof.
  unfold _generate_summary.
  pose proof (contents_from_no_abort 0 (web_results ++ news_results) name) as H.
  destruct (contents_from 0 (web_results ++ news_results)); unfold bind;
    congruence.
Qed.

(** [_generate_summary] returns a text when every result has text as
    content; when the first [None] content is at position [i] of the web
    results followed by the news results, it raises the [TypeError] of
    [join] that names item [i]. *)
Theorem summary_raises_at_first_none (U : Py.unicode)
    (web_results news_results : list search_result) (topic : text) :
  (Forall has_text (web_results ++ news_results) ->
   exists s, _generate_summary U web_results news_results topic = Ok s) /\
  (forall before r after,
      web_results ++ news_results = before ++ r :: after ->
      Forall has_text before -> content r = PNone ->
      _generate_summary U web_results news_results topic =
      Raise (txt "sequence item " ++ Py.str_of_nat (length before) ++
             txt ": expected str instance, NoneType found")).
Proof.
  split; [apply generate_summary_ok |].
  intros before r after. apply generate_summary_none.
Qed.

Lemma summary_raises_at_first_none_witness :
  _generate_summary latin_greek
    [short_trend; web_result latin_greek (txt "ai") no_snippet] [] (txt "ai") =
  Raise (txt "sequence item 1: expected str instance, NoneType found").
Proof.
  apply (proj2 (summary_raises_at_first_none latin_greek
                  [short_trend; web_result latin_greek (txt "ai") no_snippet] []
                  (txt "ai"))
           [short_trend] (web_result latin_greek (txt "ai") no_snippet) []).
  - reflexivity.
  - repeat constructor. discriminate.
  - reflexivity.
Defined.

Lemma In_when (b : bool) (line x : text) :
  In x (when b line) <-> b = true /\ x = line.
Proof.
  destruct b; simpl; split.
  - intros [<- | []]. now split.
  - intros [_ ->]. now left.
  - intros [].
  - intros [H _]. discriminate H.
Qed.

Lemma when_length (b : bool) (line : text) : length (when b line) <= 1.
Proof. destruct b; simpl; lia. Qed.

Lemma when_bulleted (b : bool) (rest : text) :
  Forall (fun l => Py.prefix bullet l = true) (when b (bullet ++ rest)).
Proof.
  destruct b; simpl; constructor; [| constructor].
  destruct rest; reflexivity.
Qed.

Lemma nonempty_true {A : Type} (l : list A) : nonempty l = true <-> l <> [].
Proof. destruct l; simpl; split; congruence. Qed.

(** The five bulleted lines start differently after the bullet and the
    blank. *)
Ltac other_line H :=
  apply (f_equal (fun x : text => nth_error x 2)) in H;
  vm_compute in H; discriminate H.

(** The summary is the header line, at most five bulleted lines and the
    closing sentence, joined by newlines; the line that counts the web
    sources is there exactly when there are web results, the line that
    counts the news articles exactly when there are news results. *)
Theorem summary_frame (U : Py.unicode)
    (web_results news_results : list search_result) (topic s : text) :
  _generate_summary U web_results news_results topic = Ok s ->
  exists lines,
    s = Py.join nl (header topic :: lines ++ [closing topic]) /\
    length lines <= 5 /\
    Forall (fun l => Py.prefix bullet l = true) lines /\
    (In (bullet ++ txt " Found " ++ Py.str_of_nat (length web_results) ++
         txt " relevant web sources with insights on " ++ topic) lines <->
     web_results <> []) /\
    (In (bullet ++ txt " Discovered " ++ Py.str_of_nat (length news_results) ++
         txt " recent news articles covering latest developments") lines <->
     news_results <> []).
Proof.
  unfold _generate_summary. intros H.
  destruct (contents_from 0 (web_results ++ news_results)) as [cs | |];
    cbn [bind] in H; try discriminate.
  apply Ok_inj in H. subst s.
  set (found := when (nonempty web_results) _ ++ when (nonempty news_results) _).
  set (themes := when _ _ ++ when _ _ ++ when _ _).
  exists (found ++ themes). split; [| split; [| split; [| split]]].
  - cbn [app]. now rewrite (app_assoc found themes).
  - subst found themes. rewrite !length_app.
    pose proof (when_length (nonempty web_results)) as Hw.
    pose proof (when_length (nonempty news_results)) as Hn.
    pose proof (when_length
                  (Py.contains (txt "growth") (Py.lower U (Py.join (txt " ") cs)))) as Hg.
    pose proof (when_length
                  (Py.contains (txt "innovation") (Py.lower U (Py.join (txt " ") cs)))) as Hi.
    pose proof (when_length
                  (Py.contains (txt "adoption") (Py.lower U (Py.join (txt " ") cs)))) as Ha.
    etransitivity;
      [repeat apply Nat.add_le_mono; [apply Hw | apply Hn | apply Hg | apply Hi | apply Ha] |].
    reflexivity.
  - subst found themes. repeat (apply Forall_app; split); apply when_bulleted.
  - subst found themes.
    rewrite <- nonempty_true, !in_app_iff, !In_when. split.
    + intros [[[Hb _] | [_ Hd]] | [[_ Hd] | [[_ Hd] | [_ Hd]]]];
        [exact Hb | | | |]; other_line Hd.
    + intros Hb. left. left. now split.
  - subst found themes.
    rewrite <- nonempty_true, !in_app_iff, !In_when. split.
    + intros [[[_ Hd] | [Hb _]] | [[_ Hd] | [[_ Hd] | [_ Hd]]]];
        [| exact Hb | | |]; other_line Hd.
    + intros Hb. left. right. now split.
Qed.

Lemma summary_frame_witness :
  exists s lines,
    _generate_summary latin_greek
      [short_trend] [news_result latin_greek (txt "ai") ai_report] (txt "ai")
    = Ok s /\
    s = Py.join nl (header (txt "ai") :: lines ++ [closing (txt "ai")]) /\
    In (txt "• Found 1 relevant web sources with insights on ai") lines /\
    In (txt "• Discovered 1 recent news articles covering latest developments")
      lines.
Proof.
  eexists.
  destruct (summary_frame latin_greek
              [short_trend] [news_result latin_greek (txt "ai") ai_report]
              (txt "ai") _ eq_refl)
    as [lines [Hs [_ [_ [Hw Hn]]]]].
  exists lines. split; [reflexivity |]. split; [exact Hs |]. split.
  - apply (proj2 Hw). discriminate.
  - apply (proj2 Hn). discriminate.
Defined.

Lemma prefix_app_blank (k a b : text) :
  no_blank k = true ->
  Py.prefix k (a ++ Py.blank :: b) = Py.prefix k a.
Proof.
  revert a. induction k as [| y k IH]; intros a Hk; [reflexivity |].
  simpl in Hk. apply andb_true_iff in Hk. destruct Hk as [Hy Hk].
  destruct a as [| x a]; simpl.
  - apply negb_true_iff in Hy. now rewrite Hy.
  - now rewrite IH.
Qed.

Lemma contains_app_blank (k a b : text) :
  no_blank k = true -> k <> [] ->
  Py.contains k (a ++ Py.blank :: b) = Py.contains k a || Py.contains k b.
Proof.
  intros Hk Hne. induction a as [| x a IH].
  - rewrite (contains_in_empty k Hne).
    change ([] ++ Py.blank :: b) with (Py.blank :: b).
    cbn [Py.contains orb].
    change (Py.blank :: b) with ([] ++ Py.blank :: b).
    rewrite (prefix_app_blank k [] b Hk).
    destruct k; [congruence | reflexivity].
  - change ((x :: a) ++ Py.blank :: b) with (x :: (a ++ Py.blank :: b)).
    cbn [Py.contains]. rewrite IH.
    change (x :: (a ++ Py.blank :: b)) with ((x :: a) ++ Py.blank :: b).
    rewrite (prefix_app_blank k (x :: a) b Hk).
    now rewrite orb_assoc.
Qed.

Lemma contains_join_blank (k : text) (cs : list text) :
  no_blank k = true -> k <> [] ->
  Py.contains k (Py.join [Py.blank] cs) = existsb (Py.contains k) cs.
Proof.
  intros Hk Hne. induction cs as [| c cs IH].
  - change (Py.join [Py.blank] []) with (@nil N).
    now rewrite contains_in_empty.
  - destruct cs as [| c' cs].
    + cbn [Py.join existsb]. now rewrite orb_false_r.
    + change (Py.join [Py.blank] (c :: c' :: cs))
        with (c ++ Py.blank :: Py.join [Py.blank] (c' :: cs)).
      rewrite contains_app_blank by assumption. now rewrite IH.
Qed.

(** A plain text is its own lower case. *)
Lemma lower_plain (U : Py.unicode) (k : text) :
  plain k = true -> Py.lower U k = k.
Proof.
  intros H. apply stable_lower. unfold plain in H.
  rewrite forallb_forall in H. rewrite Forall_forall. intros c Hc.
  specialize (H c Hc). apply andb_true_iff in H. destruct H as [Hlt Hup].
  apply ascii_stable; [now apply N.ltb_lt | now apply negb_true_iff].
Qed.

Lemma theme_found (U : Py.unicode) (k : text)
    (results : list search_result) (cs : list text) :
  no_blank k = true -> k <> [] -> plain k = true ->
  map PStr cs = map content results ->
  Py.contains k (Py.lower U (Py.join [Py.blank] cs)) = true <->
  Exists (mentions U k) results.
Proof.
  intros Hk Hne Hlow. apply (lower_plain U) in Hlow.
  rewrite lower_join_blank, contains_join_blank by assumption.
  revert cs. induction results as [| r rest IH]; intros [| c cs] Hmap;
    try discriminate Hmap.
  - simpl. split; [discriminate | intros H; inversion H].
  - simpl in Hmap. injection Hmap as Hc Hrest.
    cbn [map existsb]. rewrite orb_true_iff, (IH cs Hrest), Exists_cons.
    unfold mentions at 2, contains_nocase. rewrite Hlow, <- Hc.
    split; (intros [H | H]; [left | now right]).
    + now exists c.
    + destruct H as [c0 [Heq H]]. injection Heq as <-. exact H.
Qed.

(** The three theme lines of the summary are decided result by result:
    the line is there exactly when the content of some web or news result
    mentions "growth" (respectively "innovation", "adoption"), whatever
    the case of the letters. *)
Theorem summary_theme_lines (U : Py.unicode)
    (web_results news_results : list search_result) (topic s : text) :
  _generate_summary U web_results news_results topic = Ok s ->
  exists lines,
    s = Py.join nl (header topic :: lines ++ [closing topic]) /\
    (In (bullet ++ txt " Market growth and expansion trends identified") lines <->
     Exists (mentions U (txt "growth")) (web_results ++ news_results)) /\
    (In (bullet ++ txt " Innovation and technological advancements noted") lines <->
     Exists (mentions U (txt "innovation")) (web_results ++ news_results)) /\
    (In (bullet ++ txt " Adoption patterns and user engagement insights found") lines <->
     Exists (mentions U (txt "adoption")) (web_results ++ news_results)).
Proof.
  unfold _generate_summary. intros H.
  destruct (contents_from 0 (web_results ++ news_results)) as [cs | |] eqn:Hcs;
    cbn [bind] in H; try discriminate.
  apply Ok_inj in H. subst s. apply contents_from_ok in Hcs.
  set (found := when (nonempty web_results) _ ++ when (nonempty news_results) _).
  set (themes := when _ _ ++ when _ _ ++ when _ _).
  exists (found ++ themes). split; [| split; [| split]].
  - cbn [app]. now rewrite (app_assoc found themes).
  - subst found themes.
    rewrite <- (theme_found U (txt "growth") _ cs eq_refl
                  ltac:(discriminate) eq_refl Hcs).
    rewrite !in_app_iff, !In_when. split.
    + intros [[[_ Hd] | [_ Hd]] | [[Hb _] | [[_ Hd] | [_ Hd]]]];
        [| | exact Hb | |]; other_line Hd.
    + intros Hb. right. left. now split.
  - subst found themes.
    rewrite <- (theme_found U (txt "innovation") _ cs eq_refl
                  ltac:(discriminate) eq_refl Hcs).
    rewrite !in_app_iff, !In_when. split.
    + intros [[[_ Hd] | [_ Hd]] | [[_ Hd] | [[Hb _] | [_ Hd]]]];
        [| | | exact Hb |]; other_line Hd.
    + intros Hb. right. right. left. now split.
  - subst found themes.
    rewrite <- (theme_found U (txt "adoption") _ cs eq_refl
                  ltac:(discriminate) eq_refl Hcs).
    rewrite !in_app_iff, !In_when. split.
    + intros [[[_ Hd] | [_ Hd]] | [[_ Hd] | [[_ Hd] | [Hb _]]]];
        [| | | | exact Hb]; other_line Hd.
    + intros Hb. right. right. right. now split.
Qed.

Lemma summary_theme_lines_witness :
  exists s lines,
    _generate_summary latin_greek [growth_and_adoption] [] (txt "ai") = Ok s /\
    s = Py.join nl (header (txt "ai") :: lines ++ [closing (txt "ai")]) /\
    In (txt "• Market growth and expansion trends identified") lines /\
    ~ In (txt "• Innovation and technological advancements noted") lines.
Proof.
  eexists.
  destruct (summary_theme_lines latin_greek [growth_and_adoption] []
              (txt "ai") _ eq_refl)
    as [lines [Hs [Hg [Hi _]]]].
  exists lines. split; [reflexivity |]. split; [exact Hs |]. split.
  - apply (proj2 Hg). apply Exists_cons_hd. eexists. split; reflexivity.
  - intros H. apply (proj1 Hi) in H.
    inversion H as [r l [c [Hc Hm]] | r l Hl]; subst.
    + injection Hc as <-. vm_compute in Hm. discriminate Hm.
    + inversion Hl.
Defined.

(* ================================================================= *)
(** ** Sources *)

Lemma set_add_NoDup (x : text) (members : list text) :
  NoDup members -> NoDup (set_add x members).
Proof. apply (add_new_NoDup members x). Qed.

Lemma set_add_In (x y : text) (members : list text) :
  In y (set_add x members) -> y = x \/ In y members.
Proof.
  unfold set_add. destruct (Py.mem x members); [now right |].
  intros H. apply in_app_or in H. destruct H as [H | [<- | []]];
    [now right | now left].
Qed.

Lemma add_source_NoDup (e : env) (sources : list text) (r : search_result) :
  NoDup sources -> NoDup (add_source e sources r).
Proof.
  intros H. unfold add_source.
  destruct (url r) as [u |]; [| assumption].
  destruct (truthy (PStr u)); [| assumption].
  destruct (netloc e u) as [d | |]; try now apply set_add_NoDup.
  destruct (truthy (PStr d)); [now apply set_add_NoDup | assumption].
Qed.

Lemma truthy_text (s : text) : truthy (PStr s) = true -> s <> [].
Proof. destruct s; simpl; [discriminate | discriminate]. Qed.

Lemma add_source_In (e : env) (sources : list text) (r : search_result)
    (d : text) :
  In d (add_source e sources r) -> In d sources \/ source_of e r d.
Proof.
  unfold add_source, source_of.
  destruct (url r) as [u |] eqn:Hu; [| now left].
  destruct (truthy (PStr u)) eqn:Hut; [| now left].
  apply truthy_text in Hut.
  destruct (netloc e u) as [dom | msg | name] eqn:Hn.
  - destruct (truthy (PStr dom)) eqn:Hdt; [| now left].
    apply truthy_text in Hdt. intros H.
    apply set_add_In in H. destruct H as [-> | H]; [right | now left].
    exists u. repeat split; try assumption. now left.
  - intros H. apply set_add_In in H. destruct H as [-> | H]; [right | now left].
    exists u. repeat split; try assumption. right. split; [reflexivity |].
    exists msg. now left.
  - intros H. apply set_add_In in H. destruct H as [-> | H]; [right | now left].
    exists u. repeat split; try assumption. right. split; [reflexivity |].
    exists name. now right.
Qed.

Lemma sources_fold (e : env) (results : list search_result) (sources : list text) :
  NoDup sources ->
  NoDup (fold_left (add_source e) results sources) /\
  forall d, In d (fold_left (add_source e) results sources) ->
            In d sources \/ exists r, In r results /\ source_of e r d.
Proof.
  revert sources. induction results as [| r rest IH]; intros sources Hnd; simpl.
  - split; [assumption | intros d H; now left].
  - destruct (IH _ (add_source_NoDup e sources r Hnd)) as [Hnd' Hin].
    split; [assumption |]. intros d Hd.
    destruct (Hin d Hd) as [H | [r0 [Hr0 Hs]]].
    + apply add_source_In in H. destruct H as [H | H]; [now left | right].
      exists r. split; [now left | assumption].
    + right. exists r0. split; [now right | assumption].
Qed.

(** The sources are at most ten, pairwise different and never empty; each
    is the domain of the url of some result, or that url itself when
    parsing it raised.  Results whose url is missing, [None] or empty give
    no source. *)
Theorem unique_sources_bounded_and_distinct (e : env)
    (results : list search_result) :
  length (_get_unique_sources e results) <= 10 /\
  NoDup (_get_unique_sources e results) /\
  forall d, In d (_get_unique_sources e results) ->
            exists r, In r results /\ source_of e r d.
Proof.
  unfold _get_unique_sources.
  destruct (sources_fold e results [] (NoDup_nil _)) as [Hnd Hin].
  split; [apply firstn_le_length | split].
  - apply NoDup_firstn.
    apply (Permutation_NoDup (Permutation_sym (set_order_perm e _)) Hnd).
  - intros d Hd.
    assert (Hd' : In d (set_order e (fold_left (add_source e) results []))).
    { rewrite <- (firstn_skipn 10 (set_order e _)). apply in_or_app. now left. }
    apply (Permutation_in _ (set_order_perm e _)) in Hd'.
    destruct (Hin d Hd') as [[] | H]. exact H.
Qed.

Lemma unique_sources_bounded_and_distinct_witness :
  exists r,
    In r [web_result latin_greek (txt "ai") ai_report] /\
    source_of (sample_env (Ok []) (Ok []) (Ok [])) r
      (txt "https://ai.example/report").
Proof.
  apply (proj2 (proj2 (unique_sources_bounded_and_distinct
                         (sample_env (Ok []) (Ok []) (Ok []))
                         [web_result latin_greek (txt "ai") ai_report]))).
  vm_compute. now left.
Defined.

(* ================================================================= *)
(** ** The returned object *)

Lemma research_data_is_report (U : Py.unicode) (e : env) (topic : text)
    (max_results : Z) (j : json) :
  research_data U e topic max_results = Ok j -> keys j = report_fields.
Proof.
  unfold research_data. intros H.
  destruct (_search_web U e topic max_results) as [web | |];
    cbn [bind] in H; try discriminate.
  destruct (_search_news U e topic) as [latest | |];
    cbn [bind] in H; try discriminate.
  destruct (_extract_key_findings U _ topic); cbn [bind] in H;
    try discriminate.
  destruct (_generate_summary U _ _ topic); cbn [bind] in H; try discriminate.
  apply Ok_inj in H. subst j. reflexivity.
Qed.

Lemma search_web_no_abort (U : Py.unicode) (e : env) (topic : text)
    (max_results : Z) (name : text) :
  backend_raises_exceptions_only e ->
  _search_web U e topic max_results <> Abort name.
Proof.
  intros Hb H.
  destruct (search_web_cases U e topic max_results)
    as [[name' [_ [Ha | Ha]]] | [He | [results [expert_results [_ [_ Hr]]]]]].
  - now apply (proj1 (Hb (general_query topic) name')).
  - now apply (proj1 (Hb (expert_query topic) name')).
  - rewrite He in H. discriminate H.
  - rewrite Hr in H. discriminate H.
Qed.

Lemma search_news_no_abort (U : Py.unicode) (e : env) (topic name : text) :
  backend_raises_exceptions_only e ->
  _search_news U e topic <> Abort name.
Proof.
  intros Hb. unfold _search_news, search_news_body.
  destruct (news_search e (news_query topic)) as [hits | msg | name'] eqn:Hn;
    simpl; try discriminate.
  now destruct (proj2 (Hb (news_query topic) name')).
Qed.

Lemma research_data_no_abort (U : Py.unicode) (e : env) (topic : text)
    (max_results : Z) (name : text) :
  backend_raises_exceptions_only e ->
  research_data U e topic max_results <> Abort name.
Proof.
  intros Hb. unfold research_data.
  pose proof (search_web_no_abort U e topic max_results name Hb) as Hw.
  destruct (_search_web U e topic max_results) as [web | |]; cbn [bind];
    try congruence.
  pose proof (search_news_no_abort U e topic name Hb) as Hn.
  destruct (_search_news U e topic) as [latest | |]; cbn [bind];
    try congruence.
  pose proof (extract_key_findings_no_abort U (web ++ latest) topic name) as Hk.
  destruct (_extract_key_findings U (web ++ latest) topic); cbn [bind];
    try congruence.
  pose proof (generate_summary_no_abort U web latest topic name) as Hs.
  destruct (_generate_summary U web latest topic); cbn [bind]; congruence.
Qed.

(** C3, as stated, fails: when a query of the backend raises outside
    class [Exception] (here [KeyboardInterrupt]), no handler of the tool
    catches it and the call returns no report. *)
Lemma interrupt_escapes_run :
  _run latin_greek
    (sample_env (Abort (txt "KeyboardInterrupt")) (Ok []) (Ok []))
    (txt "ai") 5 = Abort (txt "KeyboardInterrupt") /\
  ~ returns_one_report latin_greek
      (sample_env (Abort (txt "KeyboardInterrupt")) (Ok []) (Ok []))
      (txt "ai") 5.
Proof.
  split; [reflexivity |].
  intros [j [H _]]. discriminate H.
Qed.

(** C3, amended: no exception of class [Exception] leaves [_run]; and
    when no query of the backend raises outside class [Exception], the
    call returns an object, which is the research report when the assembly
    went through and the fallback report when the assembly raised, never
    of both shapes. *)
Theorem run_returns_exactly_one_report (U : Py.unicode) (e : env)
    (topic : text) (max_results : Z) :
  (forall msg, _run U e topic max_results <> Raise msg) /\
  (backend_raises_exceptions_only e ->
   exists j,
     _run U e topic max_results = Ok j /\
     ((is_research_report j /\ ~ is_fallback_report j /\
       research_data U e topic max_results = Ok j) \/
      (is_fallback_report j /\ ~ is_research_report j /\
       exists msg, research_data U e topic max_results = Raise msg /\
                   j = fallback topic msg))).
Proof.
  split.
  - intros msg. unfold _run, try_except.
    destruct (research_data U e topic max_results); discriminate.
  - intros Hb. unfold _run, try_except.
    destruct (research_data U e topic max_results) as [j | msg | name] eqn:Hdata.
    + exists j. split; [reflexivity | left].
      pose proof (research_data_is_report _ _ _ _ _ Hdata) as Hk.
      unfold is_research_report, is_fallback_report. rewrite Hk.
      repeat split; discriminate.
    + exists (fallback topic msg). split; [reflexivity | right].
      unfold is_research_report, is_fallback_report. simpl.
      repeat split; [discriminate | exists msg; split; reflexivity].
    + now destruct (research_data_no_abort U e topic max_results name Hb).
Qed.

Lemma run_returns_exactly_one_report_witness :
  exists j,
    _run latin_greek (sample_env (Ok [RDict ai_report]) (Raise (txt "timeout")) (Ok []))
      (txt "ai") 5 = Ok j /\
    is_research_report j /\ ~ is_fallback_report j.
Proof.
  destruct (proj2 (run_returns_exactly_one_report latin_greek
                     (sample_env (Ok [RDict ai_report]) (Raise (txt "timeout"))
                        (Ok []))
                     (txt "ai") 5))
    as [j [Hrun Hshape]].
  - intros q name. split; [| discriminate]. simpl.
    destruct (text_eqb q (general_query (txt "ai"))); discriminate.
  - exists j. split; [exact Hrun |].
    destruct Hshape as [[Hr [Hn _]] | [_ [_ [msg [Hm _]]]]].
    + now split.
    + vm_compute in Hm. discriminate Hm.
Defined.

(** C5, as stated, fails: when a hit carries no snippet text the assembly
    raises, and the fallback payload has a third field, [note], under
    [fallback_insights]. *)
Lemma fallback_payload_has_a_note :
  exists j,
    _run latin_greek (sample_env (Ok [RDict no_snippet]) (Ok []) (Ok []))
      (txt "ai") 5 = Ok j /\
    is_fallback_report j /\
    ~ fallback_fields_as_listed j.
Proof.
  eexists. split; [reflexivity |]. split; [reflexivity |].
  intros [_ [insights [Hfield Hkeys]]].
  injection Hfield as <-. discriminate Hkeys.
Qed.

(** C5, amended: when the assembly raises with message [msg], the object
    returned has exactly the fields [error], [topic] and
    [fallback_insights], the latter with the three sentences about the
    topic, the five fixed themes and a fixed note. *)
Theorem fallback_payload (U : Py.unicode) (e : env) (topic : text)
    (max_results : Z) (msg : text) :
  research_data U e topic max_results = Raise msg ->
  _run U e topic max_results =
  Ok (JObj
        [("error", JStr (txt "Web search failed: " ++ msg));
         ("topic", JStr topic);
         ("fallback_insights",
          JObj
            [("general_insights",
              JList
                [JStr (topic ++ txt " is an emerging field with significant potential");
                 JStr (txt "Industry adoption of " ++ topic ++ txt " is accelerating");
                 JStr (txt "Key players are investing heavily in " ++ topic ++
                       txt " development")]);
             ("trending_themes",
              JList [JStr (txt "innovation"); JStr (txt "growth");
                     JStr (txt "adoption"); JStr (txt "technology");
                     JStr (txt "market")]);
             ("note",
              JStr (txt "These are general insights due to search limitations. For accurate information, please verify with current sources."))])]).
Proof. intros H. unfold _run. rewrite H. reflexivity. Qed.

Lemma fallback_payload_witness :
  exists j,
    _run latin_greek (sample_env (Ok [RDict no_snippet]) (Ok []) (Ok []))
      (txt "ai") 5 = Ok j /\
    field "error" j =
      Some (JStr (txt "Web search failed: object of type 'NoneType' has no len()")).
Proof.
  eexists. split.
  - apply (fallback_payload latin_greek
             (sample_env (Ok [RDict no_snippet]) (Ok []) (Ok [])) (txt "ai") 5
             (txt "object of type 'NoneType' has no len()")).
    reflexivity.
  - reflexivity.
Defined.

Lemma set_order_nil (e : env) : set_order e [] = [].
Proof.
  apply Permutation_nil, Permutation_sym, set_order_perm.
Qed.

Lemma search_web_fails (U : Py.unicode) (e : env) (topic : text)
    (max_results : Z) :
  (forall q, exists msg, search e q = Raise msg) ->
  _search_web U e topic max_results = Ok [].
Proof.
  intros H. unfold _search_web, search_web_body.
  destruct (H (general_query topic)) as [msg ->]. reflexivity.
Qed.

Lemma search_news_fails (U : Py.unicode) (e : env) (topic : text) :
  (forall q, exists msg, news_search e q = Raise msg) ->
  _search_news U e topic = Ok [].
Proof.
  intros H. unfold _search_news, search_news_body.
  destruct (H (news_query topic)) as [msg ->]. reflexivity.
Qed.

(** C9: when every query of the backend raises, [_run] returns the
    research report with no web result, no news result, no key finding,
    no trending keyword, and a summary made of the header line and the
    closing sentence alone. *)
Theorem run_when_every_query_fails (U : Py.unicode) (e : env) (topic : text)
    (max_results : Z) :
  (forall q, exists msg, search e q = Raise msg) ->
  (forall q, exists msg, news_search e q = Raise msg) ->
  _run U e topic max_results =
  Ok (JObj
        [("topic", JStr topic);
         ("search_performed_at", JStr (now e));
         ("web_results", JObj [("count", JInt 0); ("results", JList [])]);
         ("news_results", JObj [("count", JInt 0); ("results", JList [])]);
         ("key_findings", JList []);
         ("trending_keywords", JList []);
         ("summary",
          JStr (txt "Research Summary for '" ++ topic ++ txt "':" ++ nl ++
                nl ++
                nl ++ txt "The research indicates " ++ topic ++
                txt " is an active area with substantial industry interest and ongoing developments."));
         ("sources", JList [])]).
Proof.
  intros Hweb Hnews. unfold _run, research_data.
  rewrite (search_web_fails U e topic max_results Hweb).
  rewrite (search_news_fails U e topic Hnews).
  unfold _get_unique_sources. cbn [bind app fold_left].
  rewrite set_order_nil.
  unfold _extract_key_findings, _extract_trending_keywords, _generate_summary.
  cbn [firstn scan_results bind app contents_from nonempty when length
       keyword_counts fold_left Py.sort_desc fold_right map Py.join try_except
       counted].
  change (Py.lower U []) with (@nil N).
  rewrite !contains_in_empty by discriminate.
  cbn [when app Py.join]. unfold header, closing.
  rewrite <- !app_assoc. reflexivity.
Qed.

Lemma run_when_every_query_fails_witness :
  exists j,
    _run latin_greek
      (sample_env (Raise (txt "offline")) (Raise (txt "offline"))
         (Raise (txt "offline")))
      (txt "ai") 5 = Ok j /\
    is_research_report j /\
    field "key_findings" j = Some (JList []).
Proof.
  eexists. split.
  - apply (run_when_every_query_fails latin_greek
             (sample_env (Raise (txt "offline")) (Raise (txt "offline"))
                (Raise (txt "offline")))
             (txt "ai") 5).
    + intros q. simpl.
      destruct (text_eqb q (general_query (txt "ai"))); eexists; reflexivity.
    + intros q. eexists. reflexivity.
  - split; reflexivity.
Defined.

Lemma has_text_dec (results : list search_result) :
  Forall has_text results \/ Exists (fun r => content r = PNone) results.
Proof.
  induction results as [| r rest [IH | IH]].
  - left. constructor.
  - destruct (content r) as [c |] eqn:Hc.
    + left. constructor; [unfold has_text; congruence | assumption].
    + right. now apply Exists_cons_hd.
  - right. now apply Exists_cons_tl.
Qed.

Lemma Exists_none_split (results : list search_result) :
  Exists (fun r => content r = PNone) results ->
  exists before r after,
    results = before ++ r :: after /\ Forall has_text before /\
    content r = PNone.
Proof.
  induction 1 as [r rest Hr | r rest _ IH].
  - exists [], r, rest. repeat split; [constructor | assumption].
  - destruct (content r) as [c |] eqn:Hc.
    + destruct IH as [before [r0 [after [-> [Hb Hr0]]]]].
      exists (r :: before), r0, after. repeat split; [| assumption].
      constructor; [unfold has_text; congruence | assumption].
    + exists [], r, rest. repeat split; [constructor | assumption].
Qed.

Lemma has_text_firstn (n : nat) (results : list search_result) :
  Forall has_text results -> Forall has_text (firstn n results).
Proof.
  rewrite !Forall_forall. intros H r Hr. apply H.
  rewrite <- (firstn_skipn n results). apply in_or_app. now left.
Qed.

(** Once the web results and the news results are there, [_run] returns
    the fallback report exactly when one of them has [None] as content,
    that is when a hit of the backend came with a [None] snippet;
    otherwise it returns the research report.  When the [None] is among
    the first eight results the error text is the [TypeError] of
    [len(None)]. *)
Theorem run_falls_back_iff_none_content (U : Py.unicode) (e : env)
    (topic : text) (max_results : Z)
    (web_results news_results : list search_result) :
  _search_web U e topic max_results = Ok web_results ->
  _search_news U e topic = Ok news_results ->
  let results := web_results ++ news_results in
  ((exists j, _run U e topic max_results = Ok j /\ is_fallback_report j) <->
   Exists (fun r => content r = PNone) results) /\
  ((exists j, _run U e topic max_results = Ok j /\ is_research_report j) <->
   Forall has_text results) /\
  (Exists (fun r => content r = PNone) (firstn 8 results) ->
   _run U e topic max_results =
   Ok (fallback topic (txt "object of type 'NoneType' has no len()"))).
Proof.
  intros Hweb Hnews results.
  assert (Hok : Forall has_text results ->
                exists j, research_data U e topic max_results = Ok j).
  { intros Htext. unfold research_data. rewrite Hweb, Hnews. cbn [bind].
    fold results.
    destruct (extract_key_findings_ok U results topic
                (has_text_firstn 8 results Htext)) as [fs ->].
    destruct (generate_summary_ok U web_results news_results topic Htext)
      as [s ->].
    cbn [bind]. now eexists. }
  assert (Hraise : Exists (fun r => content r = PNone) results ->
                   exists msg, research_data U e topic max_results = Raise msg).
  { intros Hex. unfold research_data. rewrite Hweb, Hnews. cbn [bind].
    fold results.
    pose proof (extract_key_findings_no_abort U results topic) as Hna.
    destruct (_extract_key_findings U results topic) as [fs | msg | name];
      cbn [bind]; [| now exists msg | now destruct (Hna name)].
    destruct (Exists_none_split results Hex) as [before [r [after [Heq [Hb Hr]]]]].
    rewrite (generate_summary_none U web_results news_results topic
               before r after Heq Hb Hr).
    cbn [bind]. now eexists. }
  assert (Hreport : forall j, research_data U e topic max_results = Ok j ->
                    _run U e topic max_results = Ok j /\ is_research_report j /\
                    ~ is_fallback_report j).
  { intros j Hj. unfold _run. rewrite Hj. split; [reflexivity |].
    pose proof (research_data_is_report _ _ _ _ _ Hj) as Hk.
    unfold is_research_report, is_fallback_report. rewrite Hk.
    split; [reflexivity | discriminate]. }
  assert (Hfallback : forall msg, research_data U e topic max_results = Raise msg ->
                      _run U e topic max_results = Ok (fallback topic msg)).
  { intros msg Hm. unfold _run. now rewrite Hm. }
  split; [| split].
  - split.
    + intros [j [Hrun Hfb]].
      destruct (has_text_dec results) as [Htext | Hex]; [| exact Hex].
      destruct (Hok Htext) as [j' Hj'].
      destruct (Hreport j' Hj') as [Hrun' [_ Hnot]].
      rewrite Hrun in Hrun'. apply Ok_inj in Hrun'. subst j'. contradiction.
    + intros Hex. destruct (Hraise Hex) as [msg Hm].
      exists (fallback topic msg). split; [now apply Hfallback | reflexivity].
  - split.
    + intros [j [Hrun Hrep]].
      destruct (has_text_dec results) as [Htext | Hex]; [exact Htext |].
      destruct (Hraise Hex) as [msg Hm].
      rewrite (Hfallback msg Hm) in Hrun. apply Ok_inj in Hrun. subst j.
      discriminate Hrep.
    + intros Htext. destruct (Hok Htext) as [j Hj]. exists j.
      destruct (Hreport j Hj) as [Hrun [Hrep _]]. now split.
  - intros Hex. apply Hfallback. unfold research_data.
    rewrite Hweb, Hnews. cbn [bind]. fold results.
    rewrite (proj2 (extract_key_findings_raise U results topic no_len)
               (conj eq_refl Hex)).
    reflexivity.
Qed.

Lemma run_falls_back_iff_none_content_witness :
  _run latin_greek (sample_env (Ok [RDict no_snippet]) (Ok []) (Ok []))
    (txt "ai") 5 =
  Ok (fallback (txt "ai") (txt "object of type 'NoneType' has no len()")).
Proof.
  apply (proj2 (proj2 (run_falls_back_iff_none_content latin_greek
                         (sample_env (Ok [RDict no_snippet]) (Ok []) (Ok []))
                         (txt "ai") 5
                         [web_result latin_greek (txt "ai") no_snippet] []
                         eq_refl eq_refl))).
  apply Exists_cons_hd. reflexivity.
Defined.
End WebResearchTool.
